(** * Trajectory engine of the optimiser visualiser (src/scripts/optimisers.js)

    A shallow embedding of [evaluateNumber], [ensureValue], [invert2x2],
    [computeTrajectory1D] and [computeTrajectory2D], and the properties the
    specification states about them.

    JavaScript numbers are IEEE 754 binary64 values, so they are modelled by
    Rocq's primitive [float]: [+], [-], [*], [/], [Math.sqrt], [Math.abs] and
    the comparisons are the kernel's binary64 operations, and every concrete
    run below is computed with the arithmetic the browser uses.  The only
    numeric operation left abstract is [**] (Number::exponentiate), which
    ECMA-262 leaves implementation-approximated. *)

From Stdlib Require Import Floats ZArith.
From stdpp Require Import base option list strings.

Set Warnings "-inexact-float".
Set Default Proof Using "Type".

(** ** Completions: a call either returns or throws *)

Inductive Completion (A : Type) : Type :=
  | Normal (value : A)
  | Throw (message : string).
Arguments Normal {A} value.
Arguments Throw {A} message.

#[global] Instance Completion_ret : MRet Completion := @Normal.
#[global] Instance Completion_bind : MBind Completion := fun A B f c =>
  match c with
  | Normal a => f a
  | Throw e => Throw e
  end.

(** [try { body } catch (error) { handler }] for a body that yields a value. *)
Definition try_catch {A : Type} (body : Completion A) (handler : string -> A) : A :=
  match body with
  | Normal a => a
  | Throw e => handler e
  end.

(** ** JavaScript values an evaluator may return *)

(** Strings, BigInts, Symbols and objects (math.js [Complex], [BigNumber],
    [Fraction], matrices) convert to a number through the host's [ToNumber],
    which may itself throw; such a value is carried with the completion of that
    conversion. *)
Inductive JsValue : Type :=
  | JsNumber (n : float)
  | JsBoolean (b : bool)
  | JsNull
  | JsUndefined
  | JsOther (toNumber : Completion float).

(** [Number(value)] *)
Definition js_Number (value : JsValue) : Completion float :=
  match value with
  | JsNumber n => Normal n
  | JsBoolean true => Normal 1%float
  | JsBoolean false => Normal 0%float
  | JsNull => Normal 0%float
  | JsUndefined => Normal nan
  | JsOther c => c
  end.

(** [Number.isFinite] on a number. *)
Definition Number_isFinite (v : float) : bool := is_finite v.

(** A compiled math.js expression: [compiled.evaluate(scope)]. *)
Definition Compiled (Scope : Type) : Type := Scope -> Completion JsValue.

(** The scopes [{ x: a }] and [{ x: a, y: b }]. *)
Record Scope1D : Type := scope1 { scope_x : float }.
Record Scope2D : Type := scope2 { scope2_x : float; scope2_y : float }.

(** ** Constants *)

Definition DEFAULT_NUM_STEPS : nat := 20.
Definition EPSILON : float := 1e-9.
Definition ADAM_EPSILON : float := 1e-8.

(** ** Safe evaluation and numeric guards *)

(** The body of the [try] block of [evaluateNumber]. *)
Definition evaluateNumber_body {Scope : Type}
    (compiled : Compiled Scope) (scope : Scope) : Completion float :=
  value ← compiled scope;
  numeric ← match value with
            | JsNumber n => mret n          (* typeof value === "number" *)
            | _ => js_Number value
            end;
  mret (if Number_isFinite numeric then numeric else nan).

Definition evaluateNumber {Scope : Type}
    (compiled : Compiled Scope) (scope : Scope) : float :=
  try_catch (evaluateNumber_body compiled scope) (fun _ => nan).

Definition ensureValue (value fallback : float) : float :=
  if Number_isFinite value then value else fallback.

Record Matrix2 : Type := matrix2 { xx : float; xy : float; yx : float; yy : float }.

(** [invert2x2]; [None] is the [null] the source returns for a singular matrix. *)
Definition invert2x2 (a b c d : float) : option Matrix2 :=
  let det := (a * d - b * c)%float in
  if negb (Number_isFinite det) || (abs det <? EPSILON)%float then None
  else
    let invDet := (1 / det)%float in
    Some {| xx := (d * invDet)%float;
            xy := (- b * invDet)%float;
            yx := (- c * invDet)%float;
            yy := (a * invDet)%float |}.

(** ** Arrays of numbers *)

(** [new Array(n).fill(v)] *)
Definition Array_fill (n : nat) (v : float) : list float := replicate n v.

(** [a[i]]: past the end JavaScript reads [undefined], which every arithmetic
    use converts to NaN.  The loops below never read past the end. *)
Definition aget (a : list float) (i : nat) : float := default nan (a !! i).

(** [a[i] = v]: inside the array the slot is overwritten; past the end the
    array grows up to index [i], the skipped slots being holes. *)
Definition aset (a : list float) (i : nat) (v : float) : list float :=
  if decide (i < length a) then <[i := v]> a
  else a ++ replicate (i - length a) nan ++ [v].

(** [for (let i = 0; i < n; i += 1) body], the body as a state transformer. *)
Definition for_loop {St : Type} (n : nat) (body : nat -> St -> St) (st : St) : St :=
  fold_left (fun s i => body i s) (seq 0 n) st.

(** ** Analyses, settings and trajectories *)

Record Analysis1D : Type := {
  fn : Compiled Scope1D;
  gradient : Compiled Scope1D;
  hessian : Compiled Scope1D
}.

Record Analysis2D : Type := {
  fn2 : Compiled Scope2D;
  gradient_x : Compiled Scope2D;
  gradient_y : Compiled Scope2D;
  hessian_xx : Compiled Scope2D;
  hessian_xy : Compiled Scope2D;
  hessian_yx : Compiled Scope2D;
  hessian_yy : Compiled Scope2D
}.

(** The settings object.  [numSteps] is an iteration count and may be absent;
    the numeric fields are what [Number(input.value)] produced in the callers. *)
Record Settings : Type := {
  optimiserType : string;
  initialX : float;
  initialY : float;
  learningRate : float;
  momentum : float;
  beta1 : float;
  beta2 : float;
  numSteps : option nat
}.

(** The returned object [{ x: xs, y: ys }]. *)
Record Trajectory1D : Type :=
  trajectory1 { traj_x : list float; traj_y : list float }.

(** The returned object [{ x: xs, y: ys, z: zs }]. *)
Record Trajectory2D : Type :=
  trajectory2 { traj2_x : list float; traj2_y : list float; traj2_z : list float }.

(** ** One-variable engine *)

Section Univariate.
Variable analysis : Analysis1D.
Variable settings : Settings.

(** Body of the "Gradient Descent" loop. *)
Definition gradientDescentStep1D (i : nat) (t : Trajectory1D) : Trajectory1D :=
  let '(trajectory1 xs ys) := t in
  let gradVal := evaluateNumber (gradient analysis) (scope1 (aget xs i)) in
  if negb (Number_isFinite gradVal) then
    let xs := aset xs (i + 1) (aget xs i) in
    let ys := aset ys (i + 1) (aget ys i) in
    trajectory1 xs ys
  else
    let momentumTerm :=
      if decide (i = 0) then 0%float
      else (momentum settings * (aget xs i - aget xs (i - 1)))%float in
    let xs := aset xs (i + 1)
                (aget xs i - learningRate settings * gradVal + momentumTerm)%float in
    let ys := aset ys (i + 1)
                (ensureValue (evaluateNumber (fn analysis) (scope1 (aget xs (i + 1))))
                             (aget ys i)) in
    trajectory1 xs ys.

(** Body of the "Newton" loop. *)
Definition newtonStep1D (i : nat) (t : Trajectory1D) : Trajectory1D :=
  let '(trajectory1 xs ys) := t in
  let gradVal := evaluateNumber (gradient analysis) (scope1 (aget xs i)) in
  let hessVal := evaluateNumber (hessian analysis) (scope1 (aget xs i)) in
  if negb (Number_isFinite gradVal) || negb (Number_isFinite hessVal)
     || (abs hessVal <? EPSILON)%float then
    let xs := aset xs (i + 1) (aget xs i) in
    let ys := aset ys (i + 1) (aget ys i) in
    trajectory1 xs ys
  else
    let xs := aset xs (i + 1) (aget xs i - gradVal / hessVal)%float in
    let ys := aset ys (i + 1)
                (ensureValue (evaluateNumber (fn analysis) (scope1 (aget xs (i + 1))))
                             (aget ys i)) in
    trajectory1 xs ys.

(** The arrays as they stand when the optimiser is selected. *)
Definition initialTrajectory1D : Trajectory1D :=
  let numSteps := default DEFAULT_NUM_STEPS (numSteps settings) in
  let xs := Array_fill (numSteps + 1) 0%float in
  let ys := Array_fill (numSteps + 1) 0%float in
  let xs := aset xs 0 (initialX settings) in
  let ys := aset ys 0
              (ensureValue (evaluateNumber (fn analysis) (scope1 (aget xs 0))) 0%float) in
  trajectory1 xs ys.

Definition computeTrajectory1D : Completion Trajectory1D :=
  let numSteps := default DEFAULT_NUM_STEPS (numSteps settings) in
  let t := initialTrajectory1D in
  if String.eqb (optimiserType settings) "Gradient Descent" then
    Normal (for_loop numSteps gradientDescentStep1D t)
  else if String.eqb (optimiserType settings) "Newton" then
    Normal (for_loop numSteps newtonStep1D t)
  else
    Throw ("Unsupported optimiser type: " ++ optimiserType settings).
End Univariate.

(** ** Two-variable engine *)

(** The running state of the "Adam" loop: the three arrays and the moment
    accumulators [mx], [my], [vx], [vy]. *)
Record AdamState : Type := adamState {
  adam_traj : Trajectory2D;
  mx : float;
  my : float;
  vx : float;
  vy : float
}.

Section Bivariate.
(** [base ** exponent] for the loop counter plus one as exponent. *)
Variable exponentiate : float -> nat -> float.
Variable analysis : Analysis2D.
Variable settings : Settings.

(** Body of the "Gradient Descent" loop. *)
Definition gradientDescentStep2D (i : nat) (t : Trajectory2D) : Trajectory2D :=
  let '(trajectory2 xs ys zs) := t in
  let gradX := evaluateNumber (gradient_x analysis) (scope2 (aget xs i) (aget ys i)) in
  let gradY := evaluateNumber (gradient_y analysis) (scope2 (aget xs i) (aget ys i)) in
  if negb (Number_isFinite gradX) || negb (Number_isFinite gradY) then
    let xs := aset xs (i + 1) (aget xs i) in
    let ys := aset ys (i + 1) (aget ys i) in
    let zs := aset zs (i + 1) (aget zs i) in
    trajectory2 xs ys zs
  else
    let momentumX :=
      if decide (i = 0) then 0%float
      else (momentum settings * (aget xs i - aget xs (i - 1)))%float in
    let momentumY :=
      if decide (i = 0) then 0%float
      else (momentum settings * (aget ys i - aget ys (i - 1)))%float in
    let xs := aset xs (i + 1)
                (aget xs i - learningRate settings * gradX + momentumX)%float in
    let ys := aset ys (i + 1)
                (aget ys i - learningRate settings * gradY + momentumY)%float in
    let zs := aset zs (i + 1)
                (ensureValue
                   (evaluateNumber (fn2 analysis)
                      (scope2 (aget xs (i + 1)) (aget ys (i + 1))))
                   (aget zs i)) in
    trajectory2 xs ys zs.

(** [Math.abs(correction) > EPSILON ? correction : EPSILON] *)
Definition correctionDenominator (correction : float) : float :=
  if (EPSILON <? abs correction)%float then correction else EPSILON.

(** Body of the "Adam" loop. *)
Definition adamStep (i : nat) (st : AdamState) : AdamState :=
  let '(adamState (trajectory2 xs ys zs) mx my vx vy) := st in
  let gradX := evaluateNumber (gradient_x analysis) (scope2 (aget xs i) (aget ys i)) in
  let gradY := evaluateNumber (gradient_y analysis) (scope2 (aget xs i) (aget ys i)) in
  if negb (Number_isFinite gradX) || negb (Number_isFinite gradY) then
    let xs := aset xs (i + 1) (aget xs i) in
    let ys := aset ys (i + 1) (aget ys i) in
    let zs := aset zs (i + 1) (aget zs i) in
    adamState (trajectory2 xs ys zs) mx my vx vy
  else
    let mx := (beta1 settings * mx + (1 - beta1 settings) * gradX)%float in
    let my := (beta1 settings * my + (1 - beta1 settings) * gradY)%float in
    let vx := (beta2 settings * vx + (1 - beta2 settings) * gradX * gradX)%float in
    let vy := (beta2 settings * vy + (1 - beta2 settings) * gradY * gradY)%float in
    let beta1Correction := (1 - exponentiate (beta1 settings) (i + 1))%float in
    let beta2Correction := (1 - exponentiate (beta2 settings) (i + 1))%float in
    let mxHat := (mx / correctionDenominator beta1Correction)%float in
    let myHat := (my / correctionDenominator beta1Correction)%float in
    let vxHat := (vx / correctionDenominator beta2Correction)%float in
    let vyHat := (vy / correctionDenominator beta2Correction)%float in
    let xs := aset xs (i + 1)
                (aget xs i - learningRate settings * mxHat / (sqrt vxHat + ADAM_EPSILON))%float in
    let ys := aset ys (i + 1)
                (aget ys i - learningRate settings * myHat / (sqrt vyHat + ADAM_EPSILON))%float in
    let zs := aset zs (i + 1)
                (ensureValue
                   (evaluateNumber (fn2 analysis)
                      (scope2 (aget xs (i + 1)) (aget ys (i + 1))))
                   (aget zs i)) in
    adamState (trajectory2 xs ys zs) mx my vx vy.

(** Body of the "Newton" loop. *)
Definition newtonStep2D (i : nat) (t : Trajectory2D) : Trajectory2D :=
  let '(trajectory2 xs ys zs) := t in
  let here := scope2 (aget xs i) (aget ys i) in
  let gradX := evaluateNumber (gradient_x analysis) here in
  let gradY := evaluateNumber (gradient_y analysis) here in
  let hxx := evaluateNumber (hessian_xx analysis) here in
  let hxy := evaluateNumber (hessian_xy analysis) here in
  let hyx := evaluateNumber (hessian_yx analysis) here in
  let hyy := evaluateNumber (hessian_yy analysis) here in
  if existsb (fun v => negb (Number_isFinite v)) [gradX; gradY; hxx; hxy; hyx; hyy] then
    let xs := aset xs (i + 1) (aget xs i) in
    let ys := aset ys (i + 1) (aget ys i) in
    let zs := aset zs (i + 1) (aget zs i) in
    trajectory2 xs ys zs
  else
    match invert2x2 hxx hxy hyx hyy with
    | None =>
        let xs := aset xs (i + 1) (aget xs i) in
        let ys := aset ys (i + 1) (aget ys i) in
        let zs := aset zs (i + 1) (aget zs i) in
        trajectory2 xs ys zs
    | Some inv =>
        let stepX := (xx inv * gradX + xy inv * gradY)%float in
        let stepY := (yx inv * gradX + yy inv * gradY)%float in
        let xs := aset xs (i + 1) (aget xs i - stepX)%float in
        let ys := aset ys (i + 1) (aget ys i - stepY)%float in
        let zs := aset zs (i + 1)
                    (ensureValue
                       (evaluateNumber (fn2 analysis)
                          (scope2 (aget xs (i + 1)) (aget ys (i + 1))))
                       (aget zs i)) in
        trajectory2 xs ys zs
    end.

(** The arrays as they stand when the optimiser is selected. *)
Definition initialTrajectory2D : Trajectory2D :=
  let numSteps := default DEFAULT_NUM_STEPS (numSteps settings) in
  let xs := Array_fill (numSteps + 1) 0%float in
  let ys := Array_fill (numSteps + 1) 0%float in
  let zs := Array_fill (numSteps + 1) 0%float in
  let xs := aset xs 0 (initialX settings) in
  let ys := aset ys 0 (initialY settings) in
  let zs := aset zs 0
              (ensureValue
                 (evaluateNumber (fn2 analysis) (scope2 (aget xs 0) (aget ys 0)))
                 0%float) in
  trajectory2 xs ys zs.

(** The "Adam" loop state after [n] iterations: [mx = my = vx = vy = 0] at
    the start. *)
Definition adamRun (n : nat) : AdamState :=
  for_loop n adamStep (adamState initialTrajectory2D 0%float 0%float 0%float 0%float).

Definition computeTrajectory2D : Completion Trajectory2D :=
  let numSteps := default DEFAULT_NUM_STEPS (numSteps settings) in
  let t := initialTrajectory2D in
  if String.eqb (optimiserType settings) "Gradient Descent" then
    Normal (for_loop numSteps gradientDescentStep2D t)
  else if String.eqb (optimiserType settings) "Adam" then
    Normal (adam_traj (adamRun numSteps))
  else if String.eqb (optimiserType settings) "Newton" then
    Normal (for_loop numSteps newtonStep2D t)
  else
    Throw ("Unsupported optimiser type: " ++ optimiserType settings).
End Bivariate.

(** * Vocabulary of the properties *)

(** ** Step counts and array slots *)

(** The iteration count the engine uses. *)
Definition stepCount (settings : Settings) : nat :=
  default DEFAULT_NUM_STEPS (numSteps settings).

(** Slot [j] of a trajectory: position and objective. *)
Definition entry1D (t : Trajectory1D) (j : nat) : float * float :=
  (aget (traj_x t) j, aget (traj_y t) j).

Definition entry2D (t : Trajectory2D) (j : nat) : float * float * float :=
  (aget (traj2_x t) j, aget (traj2_y t) j, aget (traj2_z t) j).

(** Both arrays have [L] slots. *)
Definition lengths1D (L : nat) (t : Trajectory1D) : Prop :=
  length (traj_x t) = L /\ length (traj_y t) = L.

(** All three arrays have [L] slots. *)
Definition lengths2D (L : nat) (t : Trajectory2D) : Prop :=
  length (traj2_x t) = L /\ length (traj2_y t) = L /\ length (traj2_z t) = L.

(** ** Guards and update rules, read off the loop bodies *)

Section UnivariateRules.
Variable analysis : Analysis1D.
Variable settings : Settings.

(** The guard of the "Newton" loop at position [x]. *)
Definition newtonStalls1D (x : float) : bool :=
  let gradVal := evaluateNumber (gradient analysis) (scope1 x) in
  let hessVal := evaluateNumber (hessian analysis) (scope1 x) in
  negb (Number_isFinite gradVal) || negb (Number_isFinite hessVal)
  || (abs hessVal <? EPSILON)%float.

Definition gradientDescentRule1D (i : nat) (prev cur : float * float) : float * float :=
  let g := evaluateNumber (gradient analysis) (scope1 cur.1) in
  if negb (Number_isFinite g) then cur
  else
    let x' := (cur.1 - learningRate settings * g
               + (if decide (i = 0%nat) then 0
                  else momentum settings * (cur.1 - prev.1)))%float in
    (x', ensureValue (evaluateNumber (fn analysis) (scope1 x')) cur.2).

Definition newtonRule1D (i : nat) (prev cur : float * float) : float * float :=
  if newtonStalls1D cur.1 then cur
  else
    let x' := (cur.1 - evaluateNumber (gradient analysis) (scope1 cur.1)
                       / evaluateNumber (hessian analysis) (scope1 cur.1))%float in
    (x', ensureValue (evaluateNumber (fn analysis) (scope1 x')) cur.2).
End UnivariateRules.

Section BivariateRules.
Variable exponentiate : float -> nat -> float.
Variable analysis : Analysis2D.
Variable settings : Settings.

(** The guard shared by the "Gradient Descent" and "Adam" loops. *)
Definition gradientInvalid2D (x y : float) : bool :=
  negb (Number_isFinite (evaluateNumber (gradient_x analysis) (scope2 x y)))
  || negb (Number_isFinite (evaluateNumber (gradient_y analysis) (scope2 x y))).

(** The six scalars the "Newton" loop evaluates at a position. *)
Definition newtonScalars (x y : float) : list float :=
  [ evaluateNumber (gradient_x analysis) (scope2 x y);
    evaluateNumber (gradient_y analysis) (scope2 x y);
    evaluateNumber (hessian_xx analysis) (scope2 x y);
    evaluateNumber (hessian_xy analysis) (scope2 x y);
    evaluateNumber (hessian_yx analysis) (scope2 x y);
    evaluateNumber (hessian_yy analysis) (scope2 x y) ].

(** The inverse Hessian at a position, as [invert2x2] returns it. *)
Definition hessianInverse (x y : float) : option Matrix2 :=
  invert2x2 (evaluateNumber (hessian_xx analysis) (scope2 x y))
            (evaluateNumber (hessian_xy analysis) (scope2 x y))
            (evaluateNumber (hessian_yx analysis) (scope2 x y))
            (evaluateNumber (hessian_yy analysis) (scope2 x y)).

(** The two guards of the "Newton" loop taken together. *)
Definition newtonStalls2D (x y : float) : bool :=
  existsb (fun v => negb (Number_isFinite v)) (newtonScalars x y)
  || bool_decide (hessianInverse x y = None).

Definition gradientDescentRule2D (i : nat) (prev cur : float * float * float)
    : float * float * float :=
  let '(x, y, z) := cur in
  let '(px, py, _) := prev in
  if gradientInvalid2D x y then cur
  else
    let gradX := evaluateNumber (gradient_x analysis) (scope2 x y) in
    let gradY := evaluateNumber (gradient_y analysis) (scope2 x y) in
    let x' := (x - learningRate settings * gradX
               + (if decide (i = 0%nat) then 0 else momentum settings * (x - px)))%float in
    let y' := (y - learningRate settings * gradY
               + (if decide (i = 0%nat) then 0 else momentum settings * (y - py)))%float in
    (x', y', ensureValue (evaluateNumber (fn2 analysis) (scope2 x' y')) z).

Definition newtonRule2D (i : nat) (prev cur : float * float * float)
    : float * float * float :=
  let '(x, y, z) := cur in
  if existsb (fun v => negb (Number_isFinite v)) (newtonScalars x y) then cur
  else
    match hessianInverse x y with
    | None => cur
    | Some inv =>
        let gradX := evaluateNumber (gradient_x analysis) (scope2 x y) in
        let gradY := evaluateNumber (gradient_y analysis) (scope2 x y) in
        let x' := (x - (xx inv * gradX + xy inv * gradY))%float in
        let y' := (y - (yx inv * gradX + yy inv * gradY))%float in
        (x', y', ensureValue (evaluateNumber (fn2 analysis) (scope2 x' y')) z)
    end.

(** The moment accumulators of an "Adam" loop state. *)
Definition moments (st : AdamState) : float * float * float * float :=
  (mx st, my st, vx st, vy st).

Definition adamRule (i : nat) (m : float * float * float * float)
    (cur : float * float * float)
    : (float * float * float * float) * (float * float * float) :=
  let '(x, y, z) := cur in
  let '(mx, my, vx, vy) := m in
  if gradientInvalid2D x y then (m, cur)
  else
    let gradX := evaluateNumber (gradient_x analysis) (scope2 x y) in
    let gradY := evaluateNumber (gradient_y analysis) (scope2 x y) in
    let mx' := (beta1 settings * mx + (1 - beta1 settings) * gradX)%float in
    let my' := (beta1 settings * my + (1 - beta1 settings) * gradY)%float in
    let vx' := (beta2 settings * vx + (1 - beta2 settings) * gradX * gradX)%float in
    let vy' := (beta2 settings * vy + (1 - beta2 settings) * gradY * gradY)%float in
    let d1 := correctionDenominator (1 - exponentiate (beta1 settings) (i + 1))%float in
    let d2 := correctionDenominator (1 - exponentiate (beta2 settings) (i + 1))%float in
    let x' := (x - learningRate settings * (mx' / d1) / (sqrt (vx' / d2) + ADAM_EPSILON))%float in
    let y' := (y - learningRate settings * (my' / d1) / (sqrt (vy' / d2) + ADAM_EPSILON))%float in
    ((mx', my', vx', vy'),
     (x', y', ensureValue (evaluateNumber (fn2 analysis) (scope2 x' y')) z)).
End BivariateRules.

(** The guard of the selected one-variable loop at position [x]. *)
Definition stalls1D (analysis : Analysis1D) (settings : Settings) (x : float) : bool :=
  if String.eqb (optimiserType settings) "Gradient Descent"
  then negb (Number_isFinite (evaluateNumber (gradient analysis) (scope1 x)))
  else newtonStalls1D analysis x.

(** The guard of the selected two-variable loop at position [(x, y)]. *)
Definition stalls2D (analysis : Analysis2D) (settings : Settings) (x y : float) : bool :=
  if String.eqb (optimiserType settings) "Newton"
  then newtonStalls2D analysis x y
  else gradientInvalid2D analysis x y.

(** ** Numbers, evaluators and recorded objectives *)

(** Equal as JavaScript numbers: [a === b], or both NaN.  The two zeros are
    equal in this sense. *)
Definition sameNumber (a b : float) : bool :=
  (a =? b)%float || (is_nan a && is_nan b).

(** The evaluator returns a number that is NaN or infinite at [scope]. *)
Definition returnsNonFinite {Scope : Type} (compiled : Compiled Scope) (scope : Scope) : Prop :=
  exists v, compiled scope = Normal (JsNumber v) /\ Number_isFinite v = false.

(** The objective recorded after an advance: the safe evaluation [e] at the
    new position when it is valid, the previously recorded value otherwise. *)
Definition recomputedObjective (e previous recorded : float) : Prop :=
  (Number_isFinite e = true -> recorded = e)
  /\ (Number_isFinite e = false -> recorded = previous).

(** ** Analyses used as concrete inputs *)

(** [x^2], with derivative [2 * x] and second derivative [2]. *)
Definition quadratic1D : Analysis1D := {|
  fn := fun s => Normal (JsNumber (scope_x s * scope_x s)%float);
  gradient := fun s => Normal (JsNumber (2 * scope_x s)%float);
  hessian := fun _ => Normal (JsNumber 2%float)
|}.

(** [x], with derivative [1] and second derivative [0]. *)
Definition linear1D : Analysis1D := {|
  fn := fun s => Normal (JsNumber (scope_x s));
  gradient := fun _ => Normal (JsNumber 1%float);
  hessian := fun _ => Normal (JsNumber 0%float)
|}.

(** [1 / x], with derivative [-1 / x^2] and second derivative [2 / x^3]. *)
Definition reciprocal1D : Analysis1D := {|
  fn := fun s => Normal (JsNumber (1 / scope_x s)%float);
  gradient := fun s => Normal (JsNumber (- (1 / (scope_x s * scope_x s)))%float);
  hessian := fun s => Normal (JsNumber (2 / (scope_x s * scope_x s * scope_x s))%float)
|}.

(** [x^2 + y^2]. *)
Definition quadratic2D : Analysis2D := {|
  fn2 := fun s => Normal (JsNumber (scope2_x s * scope2_x s + scope2_y s * scope2_y s)%float);
  gradient_x := fun s => Normal (JsNumber (2 * scope2_x s)%float);
  gradient_y := fun s => Normal (JsNumber (2 * scope2_y s)%float);
  hessian_xx := fun _ => Normal (JsNumber 2%float);
  hessian_xy := fun _ => Normal (JsNumber 0%float);
  hessian_yx := fun _ => Normal (JsNumber 0%float);
  hessian_yy := fun _ => Normal (JsNumber 2%float)
|}.

(** [1 / x + 1 / y]. *)
Definition reciprocal2D : Analysis2D := {|
  fn2 := fun s => Normal (JsNumber (1 / scope2_x s + 1 / scope2_y s)%float);
  gradient_x := fun s => Normal (JsNumber (- (1 / (scope2_x s * scope2_x s)))%float);
  gradient_y := fun s => Normal (JsNumber (- (1 / (scope2_y s * scope2_y s)))%float);
  hessian_xx := fun s => Normal (JsNumber (2 / (scope2_x s * scope2_x s * scope2_x s))%float);
  hessian_xy := fun _ => Normal (JsNumber 0%float);
  hessian_yx := fun _ => Normal (JsNumber 0%float);
  hessian_yy := fun s => Normal (JsNumber (2 / (scope2_y s * scope2_y s * scope2_y s))%float)
|}.

(** The callers' default settings, for a chosen optimiser, start and step count. *)
Definition exampleSettings (type : string) (x0 y0 : float) (steps : option nat) : Settings := {|
  optimiserType := type;
  initialX := x0;
  initialY := y0;
  learningRate := 0.1;
  momentum := 0;
  beta1 := 0.9;
  beta2 := 0.999;
  numSteps := steps
|}.

(** [**] by repeated multiplication, exact on the inputs used below. *)
Fixpoint repeatedProduct (base : float) (exponent : nat) : float :=
  match exponent with
  | 0 => 1%float
  | S k => (base * repeatedProduct base k)%float
  end.

(** [x^2] with a derivative evaluator that returns NaN everywhere. *)
Definition brokenGradient1D : Analysis1D := {|
  fn := fn quadratic1D;
  gradient := fun _ => Normal (JsNumber nan);
  hessian := hessian quadratic1D
|}.

(** [x^2 + y^2] with partial derivative evaluators that return [Infinity] and
    NaN everywhere. *)
Definition brokenGradient2D : Analysis2D := {|
  fn2 := fn2 quadratic2D;
  gradient_x := fun _ => Normal (JsNumber infinity);
  gradient_y := fun _ => Normal (JsNumber nan);
  hessian_xx := hessian_xx quadratic2D;
  hessian_xy := hessian_xy quadratic2D;
  hessian_yx := hessian_yx quadratic2D;
  hessian_yy := hessian_yy quadratic2D
|}.

(** "Gradient Descent" with unit learning rate and no momentum, one step from
    [(-1, -1)]: on [1 / x] the step lands exactly on the pole at 0. *)
Definition poleSettings : Settings := {|
  optimiserType := "Gradient Descent";
  initialX := -1;
  initialY := -1;
  learningRate := 1;
  momentum := 0;
  beta1 := 0.9;
  beta2 := 0.999;
  numSteps := Some 1
|}.

(** "Gradient Descent" on [x] with a step so long that the first iterate
    overflows to [-Infinity]. *)
Definition overflowSettings : Settings := {|
  optimiserType := "Gradient Descent";
  initialX := -1e308;
  initialY := -1e308;
  learningRate := 1e308;
  momentum := 0;
  beta1 := 0.9;
  beta2 := 0.999;
  numSteps := Some 2
|}.

(** * Properties *)

(** ** Arrays *)

Lemma length_Array_fill (n : nat) (v : float) : length (Array_fill n v) = n.
Proof. apply length_replicate. Qed.

Lemma length_aset_lt (a : list float) (i : nat) (v : float) :
  i < length a -> length (aset a i v) = length a.
Proof.
  intros Hi. unfold aset. destruct (decide (i < length a)); [|lia].
  apply length_insert.
Qed.

Lemma aget_aset_eq (a : list float) (i : nat) (v : float) :
  aget (aset a i v) i = v.
Proof.
  unfold aget, aset. destruct (decide (i < length a)) as [Hi|Hi].
  - by rewrite list_lookup_insert_eq.
  - rewrite lookup_app_r by lia.
    rewrite lookup_app_r by (rewrite length_replicate; lia).
    rewrite length_replicate.
    by replace (i - length a - (i - length a)) with 0 by lia.
Qed.

Lemma aget_aset_ne (a : list float) (i j : nat) (v : float) :
  i ≠ j -> aget (aset a i v) j = aget a j.
Proof.
  intros Hij. unfold aget, aset. destruct (decide (i < length a)) as [Hi|Hi].
  - by rewrite list_lookup_insert_ne.
  - destruct (decide (j < length a)) as [Hj|Hj].
    + by rewrite lookup_app_l.
    + rewrite (lookup_ge_None_2 a j) by lia.
      rewrite lookup_app_r by lia.
      destruct (decide (j < i)) as [Hlt|Hge].
      * rewrite lookup_app_l by (rewrite length_replicate; lia).
        by rewrite lookup_replicate_2 by lia.
      * rewrite lookup_ge_None_2; [done|].
        rewrite length_app, length_replicate. simpl. lia.
Qed.

(** ** Loops that write one slot per iteration *)

Lemma for_loop_S {St : Type} (n : nat) (body : nat -> St -> St) (st : St) :
  for_loop (S n) body st = body n (for_loop n body st).
Proof. unfold for_loop. by rewrite seq_S, fold_left_app. Qed.

Lemma for_loop_invariant {St : Type} (P : St -> Prop) (body : nat -> St -> St)
    (N : nat) (st : St) :
  (forall i s, i < N -> P s -> P (body i s)) -> P st -> P (for_loop N body st).
Proof.
  intros Hbody Hst. induction N as [|N IH]; [done|].
  rewrite for_loop_S. apply Hbody; [lia|]. apply IH. intros; apply Hbody; [lia|done].
Qed.

Section LoopFacts.
Context {St A : Type} (obs : St -> nat -> A) (body : nat -> St -> St).

(** Iteration [i] leaves the slots up to [i] alone. *)
Hypothesis frame : forall i st j, j <= i -> obs (body i st) j = obs st j.

Lemma for_loop_stable (n m : nat) (st : St) (j : nat) :
  j <= n -> n <= m -> obs (for_loop m body st) j = obs (for_loop n body st) j.
Proof using frame.
  intros Hj Hnm. induction Hnm as [|m Hnm IH]; [done|].
  rewrite for_loop_S, frame by lia. done.
Qed.

Lemma for_loop_obs0 (N : nat) (st : St) : obs (for_loop N body st) 0 = obs st 0.
Proof using frame. by rewrite (for_loop_stable 0 N) by lia. Qed.

(** A rule that gives slot [i + 1] from slots [i - 1] and [i] in one
    iteration also relates the slots of the finished arrays. *)
Lemma for_loop_recurrence (F : nat -> A -> A -> A) (N : nat) (st : St) (i : nat) :
  (forall k s, obs (body k s) (k + 1) = F k (obs s (k - 1)) (obs s k)) ->
  i < N ->
  obs (for_loop N body st) (i + 1)
  = F i (obs (for_loop N body st) (i - 1)) (obs (for_loop N body st) i).
Proof using frame.
  intros Hstep Hi.
  rewrite (for_loop_stable (S i) N st (i + 1)) by lia.
  rewrite for_loop_S, Hstep.
  by rewrite <- (for_loop_stable i N st (i - 1)), <- (for_loop_stable i N st i) by lia.
Qed.
End LoopFacts.

(** ** One iteration, read as a rule on array slots *)

Ltac slots :=
  repeat first
    [ rewrite aget_aset_eq
    | rewrite aget_aset_ne by lia ].

Section UnivariateSteps.
Variable analysis : Analysis1D.
Variable settings : Settings.

Lemma gradientDescentStep1D_frame (i : nat) (t : Trajectory1D) (j : nat) :
  j <= i -> entry1D (gradientDescentStep1D analysis settings i t) j = entry1D t j.
Proof.
  intros Hj. destruct t as [xs ys]. unfold gradientDescentStep1D, entry1D.
  destruct (negb _); simpl; by slots.
Qed.

Lemma gradientDescentStep1D_rule (i : nat) (t : Trajectory1D) :
  entry1D (gradientDescentStep1D analysis settings i t) (i + 1)
  = gradientDescentRule1D analysis settings i (entry1D t (i - 1)) (entry1D t i).
Proof.
  destruct t as [xs ys].
  unfold gradientDescentStep1D, gradientDescentRule1D, entry1D. simpl.
  destruct (negb _); simpl; by slots.
Qed.

Lemma newtonStep1D_frame (i : nat) (t : Trajectory1D) (j : nat) :
  j <= i -> entry1D (newtonStep1D analysis i t) j = entry1D t j.
Proof.
  intros Hj. destruct t as [xs ys]. unfold newtonStep1D, entry1D.
  destruct (_ || _); simpl; by slots.
Qed.

Lemma newtonStep1D_rule (i : nat) (t : Trajectory1D) :
  entry1D (newtonStep1D analysis i t) (i + 1)
  = newtonRule1D analysis i (entry1D t (i - 1)) (entry1D t i).
Proof.
  destruct t as [xs ys].
  unfold newtonStep1D, newtonRule1D, newtonStalls1D, entry1D. simpl.
  destruct (_ || _); simpl; by slots.
Qed.

Lemma gradientDescentStep1D_length (L i : nat) (t : Trajectory1D) :
  i + 1 < L -> lengths1D L t ->
  lengths1D L (gradientDescentStep1D analysis settings i t).
Proof.
  intros Hi [Hx Hy]. destruct t as [xs ys]. unfold lengths1D in *. simpl in *.
  unfold gradientDescentStep1D. destruct (negb _); simpl;
    rewrite !length_aset_lt by lia; done.
Qed.

Lemma newtonStep1D_length (L i : nat) (t : Trajectory1D) :
  i + 1 < L -> lengths1D L t -> lengths1D L (newtonStep1D analysis i t).
Proof.
  intros Hi [Hx Hy]. destruct t as [xs ys]. unfold lengths1D in *. simpl in *.
  unfold newtonStep1D. destruct (_ || _); simpl;
    rewrite !length_aset_lt by lia; done.
Qed.

Lemma initialTrajectory1D_length :
  lengths1D (default DEFAULT_NUM_STEPS (numSteps settings) + 1)
            (initialTrajectory1D analysis settings).
Proof.
  unfold initialTrajectory1D, lengths1D; simpl.
  rewrite !length_aset_lt; rewrite ?length_Array_fill; auto; lia.
Qed.

Lemma initialTrajectory1D_entry0 :
  entry1D (initialTrajectory1D analysis settings) 0
  = (initialX settings,
     ensureValue (evaluateNumber (fn analysis) (scope1 (initialX settings))) 0%float).
Proof. unfold initialTrajectory1D, entry1D; simpl. by slots. Qed.
End UnivariateSteps.

Section BivariateSteps.
Variable exponentiate : float -> nat -> float.
Variable analysis : Analysis2D.
Variable settings : Settings.

Lemma gradientDescentStep2D_frame (i : nat) (t : Trajectory2D) (j : nat) :
  j <= i -> entry2D (gradientDescentStep2D analysis settings i t) j = entry2D t j.
Proof.
  intros Hj. destruct t as [xs ys zs]. unfold gradientDescentStep2D, entry2D.
  destruct (_ || _); simpl; by slots.
Qed.

Lemma gradientDescentStep2D_rule (i : nat) (t : Trajectory2D) :
  entry2D (gradientDescentStep2D analysis settings i t) (i + 1)
  = gradientDescentRule2D analysis settings i (entry2D t (i - 1)) (entry2D t i).
Proof.
  destruct t as [xs ys zs].
  unfold gradientDescentStep2D, gradientDescentRule2D, gradientInvalid2D, entry2D.
  destruct (_ || _); simpl; by slots.
Qed.

Lemma newtonStep2D_frame (i : nat) (t : Trajectory2D) (j : nat) :
  j <= i -> entry2D (newtonStep2D analysis i t) j = entry2D t j.
Proof.
  intros Hj. destruct t as [xs ys zs]. unfold newtonStep2D, entry2D.
  destruct (existsb _ _); [simpl; by slots|].
  destruct (invert2x2 _ _ _ _); simpl; by slots.
Qed.

Lemma newtonStep2D_rule (i : nat) (t : Trajectory2D) :
  entry2D (newtonStep2D analysis i t) (i + 1)
  = newtonRule2D analysis i (entry2D t (i - 1)) (entry2D t i).
Proof.
  destruct t as [xs ys zs].
  unfold newtonStep2D, newtonRule2D, newtonScalars, hessianInverse, entry2D.
  destruct (existsb _ _); [simpl; by slots|].
  destruct (invert2x2 _ _ _ _); simpl; by slots.
Qed.

Lemma adamStep_frame (i : nat) (st : AdamState) (j : nat) :
  j <= i ->
  entry2D (adam_traj (adamStep exponentiate analysis settings i st)) j
  = entry2D (adam_traj st) j.
Proof.
  intros Hj. destruct st as [[xs ys zs] m1 m2 v1 v2]. unfold adamStep, entry2D.
  destruct (_ || _); simpl; by slots.
Qed.

Lemma adamStep_rule (i : nat) (st : AdamState) :
  let st' := adamStep exponentiate analysis settings i st in
  (moments st', entry2D (adam_traj st') (i + 1))
  = adamRule exponentiate analysis settings i (moments st) (entry2D (adam_traj st) i).
Proof.
  destruct st as [[xs ys zs] m1 m2 v1 v2].
  unfold adamStep, adamRule, gradientInvalid2D, moments, entry2D.
  destruct (_ || _); simpl; by slots.
Qed.
End BivariateSteps.

Section BivariateLengths.
Variable exponentiate : float -> nat -> float.
Variable analysis : Analysis2D.
Variable settings : Settings.

Lemma gradientDescentStep2D_length (L i : nat) (t : Trajectory2D) :
  i + 1 < L -> lengths2D L t ->
  lengths2D L (gradientDescentStep2D analysis settings i t).
Proof.
  intros Hi (Hx & Hy & Hz). destruct t as [xs ys zs]. unfold lengths2D in *. simpl in *.
  unfold gradientDescentStep2D. destruct (_ || _); simpl;
    rewrite !length_aset_lt by lia; done.
Qed.

Lemma newtonStep2D_length (L i : nat) (t : Trajectory2D) :
  i + 1 < L -> lengths2D L t -> lengths2D L (newtonStep2D analysis i t).
Proof.
  intros Hi (Hx & Hy & Hz). destruct t as [xs ys zs]. unfold lengths2D in *. simpl in *.
  unfold newtonStep2D.
  match goal with |- context [if ?g then _ else _] => destruct g end;
    [|destruct (invert2x2 _ _ _ _)]; simpl; rewrite !length_aset_lt by lia; done.
Qed.

Lemma adamStep_length (L i : nat) (st : AdamState) :
  i + 1 < L -> lengths2D L (adam_traj st) ->
  lengths2D L (adam_traj (adamStep exponentiate analysis settings i st)).
Proof.
  intros Hi (Hx & Hy & Hz). destruct st as [[xs ys zs] m1 m2 v1 v2].
  unfold lengths2D in *. simpl in *.
  unfold adamStep. destruct (_ || _); simpl;
    rewrite !length_aset_lt by lia; done.
Qed.

Lemma initialTrajectory2D_length :
  lengths2D (default DEFAULT_NUM_STEPS (numSteps settings) + 1)
            (initialTrajectory2D analysis settings).
Proof.
  unfold initialTrajectory2D, lengths2D; simpl.
  rewrite !length_aset_lt; rewrite ?length_Array_fill; auto; lia.
Qed.

Lemma initialTrajectory2D_entry0 :
  entry2D (initialTrajectory2D analysis settings) 0
  = (initialX settings, initialY settings,
     ensureValue
       (evaluateNumber (fn2 analysis) (scope2 (initialX settings) (initialY settings)))
       0%float).
Proof. unfold initialTrajectory2D, entry2D; simpl. by slots. Qed.
End BivariateLengths.

(** ** The finished trajectories *)

Section UnivariateRuns.
Variable analysis : Analysis1D.
Variable settings : Settings.

Lemma computeTrajectory1D_gradientDescent :
  optimiserType settings = "Gradient Descent" ->
  computeTrajectory1D analysis settings
  = Normal (for_loop (stepCount settings) (gradientDescentStep1D analysis settings)
              (initialTrajectory1D analysis settings)).
Proof. intros Ht. unfold computeTrajectory1D. by rewrite Ht. Qed.

Lemma computeTrajectory1D_newton :
  optimiserType settings = "Newton" ->
  computeTrajectory1D analysis settings
  = Normal (for_loop (stepCount settings) (newtonStep1D analysis)
              (initialTrajectory1D analysis settings)).
Proof. intros Ht. unfold computeTrajectory1D. by rewrite Ht. Qed.

Lemma computeTrajectory1D_unsupported :
  optimiserType settings ≠ "Gradient Descent" ->
  optimiserType settings ≠ "Newton" ->
  computeTrajectory1D analysis settings
  = Throw ("Unsupported optimiser type: " ++ optimiserType settings).
Proof.
  intros H1 H2. unfold computeTrajectory1D.
  apply String.eqb_neq in H1, H2. by rewrite H1, H2.
Qed.

Lemma gradientDescent1D_recurrence (t : Trajectory1D) (i : nat) :
  optimiserType settings = "Gradient Descent" ->
  computeTrajectory1D analysis settings = Normal t ->
  i < stepCount settings ->
  entry1D t (i + 1)
  = gradientDescentRule1D analysis settings i (entry1D t (i - 1)) (entry1D t i).
Proof.
  intros Ht Hrun Hi. rewrite computeTrajectory1D_gradientDescent in Hrun by done.
  injection Hrun as <-.
  apply (for_loop_recurrence entry1D); [|apply gradientDescentStep1D_rule|done].
  apply gradientDescentStep1D_frame.
Qed.

Lemma newton1D_recurrence (t : Trajectory1D) (i : nat) :
  optimiserType settings = "Newton" ->
  computeTrajectory1D analysis settings = Normal t ->
  i < stepCount settings ->
  entry1D t (i + 1) = newtonRule1D analysis i (entry1D t (i - 1)) (entry1D t i).
Proof.
  intros Ht Hrun Hi. rewrite computeTrajectory1D_newton in Hrun by done.
  injection Hrun as <-.
  apply (for_loop_recurrence entry1D); [|apply newtonStep1D_rule|done].
  apply newtonStep1D_frame.
Qed.

Lemma computeTrajectory1D_start (t : Trajectory1D) :
  computeTrajectory1D analysis settings = Normal t ->
  lengths1D (stepCount settings + 1) t
  /\ entry1D t 0
     = (initialX settings,
        ensureValue (evaluateNumber (fn analysis) (scope1 (initialX settings))) 0%float).
Proof.
  unfold computeTrajectory1D. fold (stepCount settings).
  pose proof (initialTrajectory1D_length analysis settings) as Hlen.
  pose proof (initialTrajectory1D_entry0 analysis settings) as H0.
  fold (stepCount settings) in Hlen.
  destruct (String.eqb _ "Gradient Descent");
    [|destruct (String.eqb _ "Newton"); [|done]]; intros [= <-].
  - split.
    + apply (for_loop_invariant (lengths1D (stepCount settings + 1))); [|done].
      intros i s Hi Hs. apply gradientDescentStep1D_length; [lia|done].
    + by rewrite (for_loop_obs0 entry1D) by apply gradientDescentStep1D_frame.
  - split.
    + apply (for_loop_invariant (lengths1D (stepCount settings + 1))); [|done].
      intros i s Hi Hs. apply newtonStep1D_length; [lia|done].
    + by rewrite (for_loop_obs0 entry1D) by apply newtonStep1D_frame.
Qed.
End UnivariateRuns.

Section BivariateRuns.
Variable exponentiate : float -> nat -> float.
Variable analysis : Analysis2D.
Variable settings : Settings.

Lemma computeTrajectory2D_gradientDescent :
  optimiserType settings = "Gradient Descent" ->
  computeTrajectory2D exponentiate analysis settings
  = Normal (for_loop (stepCount settings) (gradientDescentStep2D analysis settings)
              (initialTrajectory2D analysis settings)).
Proof. intros Ht. unfold computeTrajectory2D. by rewrite Ht. Qed.

Lemma computeTrajectory2D_adam :
  optimiserType settings = "Adam" ->
  computeTrajectory2D exponentiate analysis settings
  = Normal (adam_traj (adamRun exponentiate analysis settings (stepCount settings))).
Proof. intros Ht. unfold computeTrajectory2D. by rewrite Ht. Qed.

Lemma computeTrajectory2D_newton :
  optimiserType settings = "Newton" ->
  computeTrajectory2D exponentiate analysis settings
  = Normal (for_loop (stepCount settings) (newtonStep2D analysis)
              (initialTrajectory2D analysis settings)).
Proof. intros Ht. unfold computeTrajectory2D. by rewrite Ht. Qed.

Lemma computeTrajectory2D_unsupported :
  optimiserType settings ≠ "Gradient Descent" ->
  optimiserType settings ≠ "Adam" ->
  optimiserType settings ≠ "Newton" ->
  computeTrajectory2D exponentiate analysis settings
  = Throw ("Unsupported optimiser type: " ++ optimiserType settings).
Proof.
  intros H1 H2 H3. unfold computeTrajectory2D.
  apply String.eqb_neq in H1, H2, H3. by rewrite H1, H2, H3.
Qed.

Lemma gradientDescent2D_recurrence (t : Trajectory2D) (i : nat) :
  optimiserType settings = "Gradient Descent" ->
  computeTrajectory2D exponentiate analysis settings = Normal t ->
  i < stepCount settings ->
  entry2D t (i + 1)
  = gradientDescentRule2D analysis settings i (entry2D t (i - 1)) (entry2D t i).
Proof.
  intros Ht Hrun Hi. rewrite computeTrajectory2D_gradientDescent in Hrun by done.
  injection Hrun as <-.
  apply (for_loop_recurrence entry2D); [|apply gradientDescentStep2D_rule|done].
  apply gradientDescentStep2D_frame.
Qed.

Lemma newton2D_recurrence (t : Trajectory2D) (i : nat) :
  optimiserType settings = "Newton" ->
  computeTrajectory2D exponentiate analysis settings = Normal t ->
  i < stepCount settings ->
  entry2D t (i + 1) = newtonRule2D analysis i (entry2D t (i - 1)) (entry2D t i).
Proof.
  intros Ht Hrun Hi. rewrite computeTrajectory2D_newton in Hrun by done.
  injection Hrun as <-.
  apply (for_loop_recurrence entry2D); [|apply newtonStep2D_rule|done].
  apply newtonStep2D_frame.
Qed.

(** For "Adam" the rule also threads the moments held after [i] iterations. *)
Lemma adam_recurrence (t : Trajectory2D) (i : nat) :
  optimiserType settings = "Adam" ->
  computeTrajectory2D exponentiate analysis settings = Normal t ->
  i < stepCount settings ->
  (moments (adamRun exponentiate analysis settings (i + 1)), entry2D t (i + 1))
  = adamRule exponentiate analysis settings i
      (moments (adamRun exponentiate analysis settings i)) (entry2D t i).
Proof.
  intros Ht Hrun Hi. rewrite computeTrajectory2D_adam in Hrun by done.
  injection Hrun as <-. unfold adamRun.
  set (obs := fun (st : AdamState) j => entry2D (adam_traj st) j).
  set (body := adamStep exponentiate analysis settings).
  set (st0 := adamState _ _ _ _ _).
  assert (Hframe : forall k st j, j <= k -> obs (body k st) j = obs st j)
    by (intros; by apply adamStep_frame).
  change (entry2D (adam_traj (for_loop (stepCount settings) body st0)) (i + 1))
    with (obs (for_loop (stepCount settings) body st0) (i + 1)).
  change (entry2D (adam_traj (for_loop (stepCount settings) body st0)) i)
    with (obs (for_loop (stepCount settings) body st0) i).
  rewrite (for_loop_stable obs body Hframe (i + 1) (stepCount settings)) by lia.
  rewrite (for_loop_stable obs body Hframe i (stepCount settings) st0 i) by lia.
  replace (i + 1) with (S i) at 1 2 by lia. rewrite for_loop_S.
  apply adamStep_rule.
Qed.

Lemma computeTrajectory2D_start (t : Trajectory2D) :
  computeTrajectory2D exponentiate analysis settings = Normal t ->
  lengths2D (stepCount settings + 1) t
  /\ entry2D t 0
     = (initialX settings, initialY settings,
        ensureValue
          (evaluateNumber (fn2 analysis) (scope2 (initialX settings) (initialY settings)))
          0%float).
Proof.
  unfold computeTrajectory2D, adamRun. fold (stepCount settings).
  pose proof (initialTrajectory2D_length analysis settings) as Hlen.
  pose proof (initialTrajectory2D_entry0 analysis settings) as H0.
  fold (stepCount settings) in Hlen.
  destruct (String.eqb _ "Gradient Descent");
    [|destruct (String.eqb _ "Adam");
      [|destruct (String.eqb _ "Newton"); [|done]]]; intros [= <-].
  - split.
    + apply (for_loop_invariant (lengths2D (stepCount settings + 1))); [|done].
      intros i s Hi Hs. apply gradientDescentStep2D_length; [lia|done].
    + by rewrite (for_loop_obs0 entry2D) by apply gradientDescentStep2D_frame.
  - split.
    + apply (for_loop_invariant
               (fun st => lengths2D (stepCount settings + 1) (adam_traj st))); [|done].
      intros i s Hi Hs. apply adamStep_length; [lia|done].
    + rewrite (for_loop_obs0 (fun st j => entry2D (adam_traj st) j)); [done|].
      intros; by apply adamStep_frame.
  - split.
    + apply (for_loop_invariant (lengths2D (stepCount settings + 1))); [|done].
      intros i s Hi Hs. apply newtonStep2D_length; [lia|done].
    + by rewrite (for_loop_obs0 entry2D) by apply newtonStep2D_frame.
Qed.
End BivariateRuns.

(** ** Facts about binary64 arithmetic *)

Lemma nan_not_finite : Number_isFinite nan = false.
Proof. reflexivity. Qed.

Lemma SFcompare_Lt_Gt (f1 f2 : spec_float) :
  SFcompare f1 f2 = Some Lt -> SFcompare f2 f1 = Some Gt.
Proof.
  destruct f1 as [s1|s1| |s1 m1 e1], f2 as [s2|s2| |s2 m2 e2]; simpl;
    try destruct s1; try destruct s2; try congruence.
  - rewrite (Z.compare_antisym e1 e2).
    destruct (e1 ?= e2)%Z; simpl; try congruence.
    change (PosDef.Pos.compare_cont Eq m2 m1) with (Pos.compare m2 m1).
    change (PosDef.Pos.compare_cont Eq m1 m2) with (Pos.compare m1 m2).
    rewrite (Pos.compare_antisym m1 m2). destruct (m1 ?= m2)%positive; simpl; congruence.
  - rewrite (Z.compare_antisym e1 e2).
    destruct (e1 ?= e2)%Z; simpl; try congruence.
    change (PosDef.Pos.compare_cont Eq m2 m1) with (Pos.compare m2 m1).
    change (PosDef.Pos.compare_cont Eq m1 m2) with (Pos.compare m1 m2).
    rewrite (Pos.compare_antisym m1 m2). destruct (m1 ?= m2)%positive; simpl; congruence.
Qed.

Lemma ltb_asym (a b : float) : (a <? b)%float = true -> (b <? a)%float = false.
Proof.
  rewrite !ltb_spec. unfold SFltb.
  destruct (SFcompare (Prim2SF a) (Prim2SF b)) as [[]|] eqn:Hc; try done.
  intros _. by rewrite (SFcompare_Lt_Gt _ _ Hc).
Qed.

Lemma SFcompare_Gt_Lt (f1 f2 : spec_float) :
  SFcompare f1 f2 = Some Gt -> SFcompare f2 f1 = Some Lt.
Proof.
  destruct f1 as [s1|s1| |s1 m1 e1], f2 as [s2|s2| |s2 m2 e2]; simpl;
    try destruct s1; try destruct s2; try congruence;
    rewrite (Z.compare_antisym e1 e2);
    destruct (e1 ?= e2)%Z; simpl; try congruence;
    change (PosDef.Pos.compare_cont Eq m2 m1) with (Pos.compare m2 m1);
    change (PosDef.Pos.compare_cont Eq m1 m2) with (Pos.compare m1 m2);
    rewrite (Pos.compare_antisym m1 m2); destruct (m1 ?= m2)%positive; simpl; congruence.
Qed.

Lemma SFcompare_None (f1 f2 : spec_float) :
  SFcompare f1 f2 = None -> f1 = S754_nan \/ f2 = S754_nan.
Proof.
  destruct f1 as [s1|s1| |s1 m1 e1], f2 as [s2|s2| |s2 m2 e2]; simpl; auto; discriminate.
Qed.

(** Two numbers neither of which is below the other are equal under [===],
    unless one of them is NaN. *)
Lemma ltb_neither (a b : float) :
  (a <? b)%float = false -> (b <? a)%float = false ->
  (a =? b)%float = true \/ Prim2SF a = S754_nan \/ Prim2SF b = S754_nan.
Proof.
  rewrite !ltb_spec, FloatAxioms.eqb_spec. unfold SFltb, SFeqb.
  destruct (SFcompare (Prim2SF a) (Prim2SF b)) as [[]|] eqn:Hc; try done.
  - by left.
  - rewrite (SFcompare_Gt_Lt _ _ Hc). done.
  - intros _ _. right. by apply SFcompare_None.
Qed.

Lemma abs_eqb_finite (c b : float) (mb : positive) (eb : Z) :
  Prim2SF b = S754_finite false mb eb ->
  (abs c =? b)%float = true -> c = b \/ c = (- b)%float.
Proof.
  intros Hb. rewrite FloatAxioms.eqb_spec, abs_spec, Hb. unfold SFeqb.
  destruct (Prim2SF c) as [s|s| |s m e] eqn:Hc; simpl; try done.
  destruct (Z.compare_spec e eb) as [->| |]; try done.
  change (PosDef.Pos.compare_cont Eq m mb) with (Pos.compare m mb).
  destruct (Pos.compare_spec m mb) as [->| |]; try done. intros _.
  destruct s; [right|left]; apply Prim2SF_inj; rewrite Hc; [|done].
  by rewrite opp_spec, Hb.
Qed.

Lemma SFeqb_refl_not_nan (f : spec_float) : f ≠ S754_nan -> SFeqb f f = true.
Proof.
  unfold SFeqb. destruct f as [s|s| |s m e]; simpl; try done; try by destruct s.
  intros _. rewrite Z.compare_refl.
  change (PosDef.Pos.compare_cont Eq m m) with (Pos.compare m m).
  rewrite Pos.compare_refl. by destruct s.
Qed.

(** A finite number is a zero or a finite non-zero binary64 value. *)
Lemma finite_Prim2SF (d : float) :
  Number_isFinite d = true ->
  (exists s, Prim2SF d = S754_zero s) \/ (exists s m e, Prim2SF d = S754_finite s m e).
Proof.
  unfold Number_isFinite, is_finite, is_nan, is_infinity.
  rewrite !FloatAxioms.eqb_spec, abs_spec.
  destruct (Prim2SF d) as [s|s| |s m e]; eauto.
  - rewrite orb_true_r. done.
  - done.
Qed.

(** Zero times a finite number is a zero. *)
Lemma mul_zero_finite (d : float) :
  Number_isFinite d = true -> exists s, Prim2SF (0 * d)%float = S754_zero s.
Proof.
  intros Hd. rewrite mul_spec.
  change (Prim2SF 0) with (S754_zero false).
  destruct (finite_Prim2SF d Hd) as [[s ->]|(s & m & e & ->)]; simpl; eauto.
Qed.

(** Adding a zero keeps the number, up to the sign of a zero result. *)
Lemma add_zero_sameNumber (v t : float) (s : bool) :
  Prim2SF t = S754_zero s -> sameNumber (v + t)%float v = true.
Proof.
  intros Ht. unfold sameNumber, is_nan. rewrite !FloatAxioms.eqb_spec, add_spec, Ht.
  unfold SF64add, SFadd.
  destruct (Prim2SF v) as [sv|sv| |sv m e] eqn:Hv.
  - by destruct sv, s.
  - rewrite SFeqb_refl_not_nan; done.
  - done.
  - rewrite SFeqb_refl_not_nan; done.
Qed.

(** Two numbers are shown different by evaluating a test that separates them. *)
Ltac float_discriminate :=
  let H := fresh in
  intros H; apply (f_equal Prim2SF) in H; vm_compute in H; discriminate H.

(** Zero times an infinite number or NaN is NaN. *)
Lemma mul_zero_not_finite (d : float) :
  Number_isFinite d = false -> (0 * d)%float = nan.
Proof.
  intros Hd. apply Prim2SF_inj. rewrite mul_spec.
  change (Prim2SF 0) with (S754_zero false). change (Prim2SF nan) with S754_nan.
  destruct (Number_isFinite d) eqn:Hf; [done|]. clear Hd.
  unfold Number_isFinite, is_finite, is_nan, is_infinity in Hf.
  rewrite !FloatAxioms.eqb_spec, abs_spec in Hf.
  destruct (Prim2SF d) as [s|s| |s m e]; simpl in *; try done.
  unfold SFeqb in Hf. simpl in Hf. rewrite Z.compare_refl in Hf.
  change (PosDef.Pos.compare_cont Eq m m) with (Pos.compare m m) in Hf.
  rewrite Pos.compare_refl in Hf. by destruct s.
Qed.

(** Adding NaN gives NaN. *)
Lemma add_nan (v : float) : (v + nan)%float = nan.
Proof.
  apply Prim2SF_inj. rewrite add_spec. change (Prim2SF nan) with S754_nan.
  by destruct (Prim2SF v).
Qed.

(** With no momentum the stored iterate is the plain descent step whenever the
    momentum term is a product with a finite displacement, or absent. *)
Lemma plain_descent_sameNumber (v d : float) (i : nat) :
  i = 0%nat \/ Number_isFinite d = true ->
  sameNumber (v + (if decide (i = 0%nat) then 0 else 0 * d))%float v = true.
Proof.
  intros Hd. destruct (decide (i = 0%nat)) as [Hi|Hi].
  - by apply (add_zero_sameNumber v 0%float false).
  - destruct Hd as [Hd|Hd]; [done|].
    destruct (mul_zero_finite d Hd) as [s Hs]. by apply (add_zero_sameNumber v _ s).
Qed.

Lemma poisoned_descent_nan (v d : float) (i : nat) :
  i ≠ 0%nat -> Number_isFinite d = false ->
  (v + (if decide (i = 0%nat) then 0 else 0 * d))%float = nan.
Proof.
  intros Hi Hd. destruct (decide (i = 0%nat)); [done|].
  by rewrite mul_zero_not_finite, add_nan.
Qed.

(** A correction whose magnitude is below [EPSILON] is replaced by [EPSILON];
    one whose magnitude is above it is used as it is. *)
Lemma correctionDenominator_cases (c : float) :
  ((abs c <? 1e-9)%float = true -> correctionDenominator c = 1e-9%float)
  /\ ((1e-9 <? abs c)%float = true -> correctionDenominator c = c).
Proof.
  unfold correctionDenominator. change EPSILON with 1e-9%float. split.
  - intros Hlt. by rewrite (ltb_asym _ _ Hlt).
  - by intros ->.
Qed.

(** The source tests [|c| > EPSILON] where the rule reads "replaced when the
    magnitude is below [EPSILON]": the two select the same denominator except
    at [c = -1e-9] exactly and at NaN, where the source uses [EPSILON] too. *)
Lemma correctionDenominator_literal (c : float) :
  correctionDenominator c = (if (abs c <? 1e-9)%float then 1e-9%float else c)
  \/ c = (-1e-9)%float \/ c = nan.
Proof.
  unfold correctionDenominator. change EPSILON with 1e-9%float.
  destruct (1e-9 <? abs c)%float eqn:Hgt.
  - left. by rewrite (ltb_asym _ _ Hgt).
  - destruct (abs c <? 1e-9)%float eqn:Hlt; [by left|].
    destruct (ltb_neither _ _ Hlt Hgt) as [Heq|[Hnan|Hnan]].
    + destruct (abs_eqb_finite c 1e-9%float _ _ eq_refl Heq) as [->| ->]; auto.
    + right; right. apply Prim2SF_inj. rewrite abs_spec in Hnan.
      change (Prim2SF nan) with S754_nan. by destruct (Prim2SF c).
    + vm_compute in Hnan. discriminate.
Qed.

(** ** The safe evaluator *)

Lemma evaluateNumber_nan_or_finite {Scope : Type} (compiled : Compiled Scope) (scope : Scope) :
  evaluateNumber compiled scope = nan
  \/ Number_isFinite (evaluateNumber compiled scope) = true.
Proof.
  unfold evaluateNumber, evaluateNumber_body.
  destruct (compiled scope) as [value|e]; simpl; [|by left].
  destruct value as [n|[]| | |[n|e]]; simpl; auto;
    match goal with
    | |- context [Number_isFinite ?v] =>
        destruct (Number_isFinite v) eqn:Hv; [right; done|left; done]
    end.
Qed.


Lemma evaluateNumber_returnsNonFinite {Scope : Type}
    (compiled : Compiled Scope) (scope : Scope) :
  returnsNonFinite compiled scope -> evaluateNumber compiled scope = nan.
Proof.
  intros (v & Hc & Hv). unfold evaluateNumber, evaluateNumber_body.
  rewrite Hc. simpl. by rewrite Hv.
Qed.

(** ** Stalled steps *)

Lemma computeTrajectory1D_Normal_type
    (analysis : Analysis1D) (settings : Settings) (t : Trajectory1D) :
  computeTrajectory1D analysis settings = Normal t ->
  optimiserType settings = "Gradient Descent" \/ optimiserType settings = "Newton".
Proof.
  unfold computeTrajectory1D.
  destruct (String.eqb_spec (optimiserType settings) "Gradient Descent"); [by left|].
  destruct (String.eqb_spec (optimiserType settings) "Newton"); [by right|done].
Qed.

Lemma computeTrajectory2D_Normal_type (exponentiate : float -> nat -> float)
    (analysis : Analysis2D) (settings : Settings) (t : Trajectory2D) :
  computeTrajectory2D exponentiate analysis settings = Normal t ->
  optimiserType settings = "Gradient Descent" \/ optimiserType settings = "Adam"
  \/ optimiserType settings = "Newton".
Proof.
  unfold computeTrajectory2D.
  destruct (String.eqb_spec (optimiserType settings) "Gradient Descent"); [by left|].
  destruct (String.eqb_spec (optimiserType settings) "Adam"); [by right; left|].
  destruct (String.eqb_spec (optimiserType settings) "Newton"); [by right; right|done].
Qed.

Lemma stalled_step1D (analysis : Analysis1D) (settings : Settings)
    (t : Trajectory1D) (i : nat) :
  computeTrajectory1D analysis settings = Normal t ->
  i < stepCount settings ->
  stalls1D analysis settings (aget (traj_x t) i) = true ->
  entry1D t (i + 1) = entry1D t i.
Proof.
  intros Hrun Hi Hstall. unfold stalls1D in Hstall.
  destruct (computeTrajectory1D_Normal_type _ _ _ Hrun) as [Ht|Ht]; rewrite Ht in Hstall.
  - rewrite (gradientDescent1D_recurrence analysis settings t i) by done.
    unfold gradientDescentRule1D. simpl in *. by rewrite Hstall.
  - rewrite (newton1D_recurrence analysis settings t i) by done.
    unfold newtonRule1D. simpl in *. by rewrite Hstall.
Qed.

Lemma stalled_step2D (exponentiate : float -> nat -> float)
    (analysis : Analysis2D) (settings : Settings) (t : Trajectory2D) (i : nat) :
  computeTrajectory2D exponentiate analysis settings = Normal t ->
  i < stepCount settings ->
  stalls2D analysis settings (aget (traj2_x t) i) (aget (traj2_y t) i) = true ->
  entry2D t (i + 1) = entry2D t i.
Proof.
  intros Hrun Hi Hstall. unfold stalls2D in Hstall.
  destruct (computeTrajectory2D_Normal_type _ _ _ _ Hrun) as [Ht|[Ht|Ht]];
    rewrite Ht in Hstall; simpl in Hstall.
  - rewrite (gradientDescent2D_recurrence exponentiate analysis settings t i) by done.
    unfold gradientDescentRule2D, entry2D. by rewrite Hstall.
  - pose proof (adam_recurrence exponentiate analysis settings t i Ht Hrun Hi) as Hrec.
    unfold adamRule, entry2D, moments in Hrec. rewrite Hstall in Hrec.
    unfold entry2D. congruence.
  - rewrite (newton2D_recurrence exponentiate analysis settings t i) by done.
    unfold newtonRule2D, entry2D. unfold newtonStalls2D in Hstall.
    destruct (existsb _ _); [done|]. simpl in Hstall.
    apply bool_decide_eq_true in Hstall. by rewrite Hstall.
Qed.

(** While every step so far has stalled, the slots repeat slot 0. *)
Lemma stalled_prefix1D (analysis : Analysis1D) (settings : Settings)
    (t : Trajectory1D) (k : nat) :
  computeTrajectory1D analysis settings = Normal t ->
  k <= stepCount settings ->
  (forall i, i < k -> stalls1D analysis settings (aget (traj_x t) i) = true) ->
  entry1D t k = entry1D t 0.
Proof.
  intros Hrun. induction k as [|k IH]; [done|]. intros Hk Hstall.
  replace (S k) with (k + 1) by lia.
  rewrite (stalled_step1D analysis settings t k); [|done|lia|apply Hstall; lia].
  apply IH; [lia|]. intros i Hi. apply Hstall. lia.
Qed.

Lemma stalled_prefix2D (exponentiate : float -> nat -> float)
    (analysis : Analysis2D) (settings : Settings) (t : Trajectory2D) (k : nat) :
  computeTrajectory2D exponentiate analysis settings = Normal t ->
  k <= stepCount settings ->
  (forall i, i < k ->
     stalls2D analysis settings (aget (traj2_x t) i) (aget (traj2_y t) i) = true) ->
  entry2D t k = entry2D t 0.
Proof.
  intros Hrun. induction k as [|k IH]; [done|]. intros Hk Hstall.
  replace (S k) with (k + 1) by lia.
  rewrite (stalled_step2D exponentiate analysis settings t k);
    [|done|lia|apply Hstall; lia].
  apply IH; [lia|]. intros i Hi. apply Hstall. lia.
Qed.

(** An invalid gradient trips the guard of every loop. *)
Lemma invalid_gradient_stalls1D (analysis : Analysis1D) (settings : Settings) (x : float) :
  evaluateNumber (gradient analysis) (scope1 x) = nan ->
  stalls1D analysis settings x = true.
Proof.
  intros Hg. unfold stalls1D, newtonStalls1D. rewrite Hg.
  by destruct (String.eqb _ _).
Qed.

Lemma invalid_gradient_stalls2D (analysis : Analysis2D) (settings : Settings) (x y : float) :
  evaluateNumber (gradient_x analysis) (scope2 x y) = nan ->
  stalls2D analysis settings x y = true.
Proof.
  intros Hg. unfold stalls2D, newtonStalls2D, gradientInvalid2D, newtonScalars.
  rewrite Hg. by destruct (String.eqb _ _).
Qed.

(** ** Steps that advance *)

Section Advance1D.
Variable analysis : Analysis1D.
Variable settings : Settings.
Variable t : Trajectory1D.
Variable i : nat.
Hypothesis Hrun : computeTrajectory1D analysis settings = Normal t.
Hypothesis Hi : i < stepCount settings.

Lemma gradientDescent1D_advance :
  optimiserType settings = "Gradient Descent" ->
  Number_isFinite (evaluateNumber (gradient analysis) (scope1 (aget (traj_x t) i))) = true ->
  aget (traj_x t) (i + 1)
  = (aget (traj_x t) i
     - learningRate settings * evaluateNumber (gradient analysis) (scope1 (aget (traj_x t) i))
     + (if decide (i = 0%nat) then 0
        else momentum settings * (aget (traj_x t) i - aget (traj_x t) (i - 1))))%float
  /\ aget (traj_y t) (i + 1)
     = ensureValue (evaluateNumber (fn analysis) (scope1 (aget (traj_x t) (i + 1))))
                   (aget (traj_y t) i).
Proof using Hrun Hi.
  intros Ht Hg.
  pose proof (gradientDescent1D_recurrence analysis settings t i Ht Hrun Hi) as Hrec.
  unfold gradientDescentRule1D, entry1D in Hrec. simpl in Hrec. rewrite Hg in Hrec.
  simpl in Hrec. injection Hrec as Hx Hy. rewrite <- Hx in Hy. done.
Qed.

Lemma newton1D_advance :
  optimiserType settings = "Newton" ->
  newtonStalls1D analysis (aget (traj_x t) i) = false ->
  aget (traj_x t) (i + 1)
  = (aget (traj_x t) i
     - evaluateNumber (gradient analysis) (scope1 (aget (traj_x t) i))
       / evaluateNumber (hessian analysis) (scope1 (aget (traj_x t) i)))%float
  /\ aget (traj_y t) (i + 1)
     = ensureValue (evaluateNumber (fn analysis) (scope1 (aget (traj_x t) (i + 1))))
                   (aget (traj_y t) i).
Proof using Hrun Hi.
  intros Ht Hg.
  pose proof (newton1D_recurrence analysis settings t i Ht Hrun Hi) as Hrec.
  unfold newtonRule1D, entry1D in Hrec. simpl in Hrec. rewrite Hg in Hrec.
  injection Hrec as Hx Hy. rewrite <- Hx in Hy. done.
Qed.
End Advance1D.

Section Advance2D.
Variable exponentiate : float -> nat -> float.
Variable analysis : Analysis2D.
Variable settings : Settings.
Variable t : Trajectory2D.
Variable i : nat.
Hypothesis Hrun : computeTrajectory2D exponentiate analysis settings = Normal t.
Hypothesis Hi : i < stepCount settings.

Lemma gradientDescent2D_advance :
  optimiserType settings = "Gradient Descent" ->
  gradientInvalid2D analysis (aget (traj2_x t) i) (aget (traj2_y t) i) = false ->
  let here := scope2 (aget (traj2_x t) i) (aget (traj2_y t) i) in
  aget (traj2_x t) (i + 1)
  = (aget (traj2_x t) i
     - learningRate settings * evaluateNumber (gradient_x analysis) here
     + (if decide (i = 0%nat) then 0
        else momentum settings * (aget (traj2_x t) i - aget (traj2_x t) (i - 1))))%float
  /\ aget (traj2_y t) (i + 1)
     = (aget (traj2_y t) i
        - learningRate settings * evaluateNumber (gradient_y analysis) here
        + (if decide (i = 0%nat) then 0
           else momentum settings * (aget (traj2_y t) i - aget (traj2_y t) (i - 1))))%float
  /\ aget (traj2_z t) (i + 1)
     = ensureValue
         (evaluateNumber (fn2 analysis)
            (scope2 (aget (traj2_x t) (i + 1)) (aget (traj2_y t) (i + 1))))
         (aget (traj2_z t) i).
Proof using Hrun Hi.
  intros Ht Hg here.
  pose proof (gradientDescent2D_recurrence exponentiate analysis settings t i Ht Hrun Hi)
    as Hrec.
  unfold gradientDescentRule2D, entry2D in Hrec. rewrite Hg in Hrec.
  injection Hrec as Hx Hy Hz. rewrite <- Hx, <- Hy in Hz. done.
Qed.

Lemma newton2D_advance :
  optimiserType settings = "Newton" ->
  newtonStalls2D analysis (aget (traj2_x t) i) (aget (traj2_y t) i) = false ->
  let here := scope2 (aget (traj2_x t) i) (aget (traj2_y t) i) in
  exists inv,
    hessianInverse analysis (aget (traj2_x t) i) (aget (traj2_y t) i) = Some inv
    /\ aget (traj2_x t) (i + 1)
       = (aget (traj2_x t) i
          - (xx inv * evaluateNumber (gradient_x analysis) here
             + xy inv * evaluateNumber (gradient_y analysis) here))%float
    /\ aget (traj2_y t) (i + 1)
       = (aget (traj2_y t) i
          - (yx inv * evaluateNumber (gradient_x analysis) here
             + yy inv * evaluateNumber (gradient_y analysis) here))%float
    /\ aget (traj2_z t) (i + 1)
       = ensureValue
           (evaluateNumber (fn2 analysis)
              (scope2 (aget (traj2_x t) (i + 1)) (aget (traj2_y t) (i + 1))))
           (aget (traj2_z t) i).
Proof using Hrun Hi.
  intros Ht Hg here.
  pose proof (newton2D_recurrence exponentiate analysis settings t i Ht Hrun Hi) as Hrec.
  unfold newtonRule2D, entry2D in Hrec. unfold newtonStalls2D in Hg.
  apply orb_false_iff in Hg as [Hscalars Hinv]. rewrite Hscalars in Hrec.
  apply bool_decide_eq_false in Hinv.
  destruct (hessianInverse _ _ _) as [inv|]; [|done].
  exists inv. split; [done|].
  injection Hrec as Hx Hy Hz. rewrite <- Hx, <- Hy in Hz. done.
Qed.

Lemma adam_advance :
  optimiserType settings = "Adam" ->
  gradientInvalid2D analysis (aget (traj2_x t) i) (aget (traj2_y t) i) = false ->
  let here := scope2 (aget (traj2_x t) i) (aget (traj2_y t) i) in
  let gradX := evaluateNumber (gradient_x analysis) here in
  let gradY := evaluateNumber (gradient_y analysis) here in
  let before := adamRun exponentiate analysis settings i in
  let after := adamRun exponentiate analysis settings (i + 1) in
  let d1 := correctionDenominator (1 - exponentiate (beta1 settings) (i + 1))%float in
  let d2 := correctionDenominator (1 - exponentiate (beta2 settings) (i + 1))%float in
  mx after = (beta1 settings * mx before + (1 - beta1 settings) * gradX)%float
  /\ my after = (beta1 settings * my before + (1 - beta1 settings) * gradY)%float
  /\ vx after = (beta2 settings * vx before + (1 - beta2 settings) * gradX * gradX)%float
  /\ vy after = (beta2 settings * vy before + (1 - beta2 settings) * gradY * gradY)%float
  /\ aget (traj2_x t) (i + 1)
     = (aget (traj2_x t) i
        - learningRate settings * (mx after / d1) / (sqrt (vx after / d2) + ADAM_EPSILON))%float
  /\ aget (traj2_y t) (i + 1)
     = (aget (traj2_y t) i
        - learningRate settings * (my after / d1) / (sqrt (vy after / d2) + ADAM_EPSILON))%float
  /\ aget (traj2_z t) (i + 1)
     = ensureValue
         (evaluateNumber (fn2 analysis)
            (scope2 (aget (traj2_x t) (i + 1)) (aget (traj2_y t) (i + 1))))
         (aget (traj2_z t) i).
Proof using Hrun Hi.
  intros Ht Hg here gradX gradY before after d1 d2.
  pose proof (adam_recurrence exponentiate analysis settings t i Ht Hrun Hi) as Hrec.
  unfold adamRule, entry2D, moments in Hrec. rewrite Hg in Hrec.
  fold before after in Hrec.
  injection Hrec as Hmx Hmy Hvx Hvy Hx Hy Hz.
  rewrite <- Hx, <- Hy in Hz.
  rewrite <- Hmx, <- Hvx in Hx. rewrite <- Hmy, <- Hvy in Hy.
  repeat split; assumption.
Qed.
End Advance2D.

Lemma ensureValue_recomputed (e previous : float) :
  recomputedObjective e previous (ensureValue e previous).
Proof. unfold recomputedObjective, ensureValue. by destruct (Number_isFinite e). Qed.

(** * The claims *)

(** ** C1: length and first slot *)

(** C1, as stated, fails on the objective at index 0: for [1 / x] started at
    [x = 0] the safe evaluation of the objective is the sentinel NaN, while the
    trajectory records the number 0. *)
Lemma initial_objective_is_not_the_sentinel :
  exists t,
    computeTrajectory1D reciprocal1D (exampleSettings "Newton" 0 0 (Some 2)) = Normal t
    /\ evaluateNumber (fn reciprocal1D) (scope1 0%float) = nan
    /\ aget (traj_y t) 0 = 0%float
    /\ aget (traj_y t) 0 ≠ evaluateNumber (fn reciprocal1D) (scope1 0%float).
Proof.
  eexists. split; [reflexivity|]. split; [reflexivity|]. split; [reflexivity|].
  float_discriminate.
Qed.

(** C1, amended: for a recognised [optimiserType] the call returns a
    trajectory whose arrays all have length [numSteps + 1] ([numSteps] being 20
    when absent), whose position at index 0 is [initialX] (and [initialY]), and
    whose objective at index 0 is the safe evaluation of the objective at the
    initial point when that is a finite number, and the number 0 when it is
    invalid. *)
Theorem trajectory_length_and_start
    (exponentiate : float -> nat -> float)
    (analysis1 : Analysis1D) (analysis2 : Analysis2D) (settings : Settings) :
  let n := match numSteps settings with Some n => n | None => 20 end in
  (optimiserType settings = "Gradient Descent" \/ optimiserType settings = "Newton" ->
   exists t,
     computeTrajectory1D analysis1 settings = Normal t
     /\ length (traj_x t) = n + 1
     /\ length (traj_y t) = n + 1
     /\ aget (traj_x t) 0 = initialX settings
     /\ aget (traj_y t) 0
        = (let v := evaluateNumber (fn analysis1) (scope1 (initialX settings)) in
           if Number_isFinite v then v else 0%float))
  /\ (optimiserType settings = "Gradient Descent" \/ optimiserType settings = "Adam"
      \/ optimiserType settings = "Newton" ->
      exists t,
        computeTrajectory2D exponentiate analysis2 settings = Normal t
        /\ length (traj2_x t) = n + 1
        /\ length (traj2_y t) = n + 1
        /\ length (traj2_z t) = n + 1
        /\ aget (traj2_x t) 0 = initialX settings
        /\ aget (traj2_y t) 0 = initialY settings
        /\ aget (traj2_z t) 0
           = (let v := evaluateNumber (fn2 analysis2)
                         (scope2 (initialX settings) (initialY settings)) in
              if Number_isFinite v then v else 0%float)).
Proof.
  intros n. change n with (stepCount settings). clear n. split.
  - intros Htype.
    assert (exists t, computeTrajectory1D analysis1 settings = Normal t) as [t Ht].
    { destruct Htype as [H|H];
        [rewrite computeTrajectory1D_gradientDescent by done
        |rewrite computeTrajectory1D_newton by done]; eauto. }
    exists t. split; [done|].
    destruct (computeTrajectory1D_start _ _ _ Ht) as ((Hx & Hy) & H0).
    injection H0 as H0x H0y. done.
  - intros Htype.
    assert (exists t, computeTrajectory2D exponentiate analysis2 settings = Normal t)
      as [t Ht].
    { destruct Htype as [H|[H|H]];
        [rewrite computeTrajectory2D_gradientDescent by done
        |rewrite computeTrajectory2D_adam by done
        |rewrite computeTrajectory2D_newton by done]; eauto. }
    exists t. split; [done|].
    destruct (computeTrajectory2D_start _ _ _ _ Ht) as ((Hx & Hy & Hz) & H0).
    injection H0 as H0x H0y H0z. done.
Qed.

(** The amended C1 at [x^2] and [x^2 + y^2] started at 1, with [numSteps]
    absent: 21 slots, the start at index 0 and the objective there. *)
Lemma trajectory_length_and_start_witness :
  (exists t,
     computeTrajectory1D quadratic1D (exampleSettings "Newton" 1 1 None) = Normal t
     /\ length (traj_x t) = 21
     /\ length (traj_y t) = 21
     /\ aget (traj_x t) 0 = 1%float
     /\ aget (traj_y t) 0 = 1%float)
  /\ (exists t,
        computeTrajectory2D repeatedProduct quadratic2D (exampleSettings "Adam" 1 1 None)
        = Normal t
        /\ length (traj2_x t) = 21
        /\ length (traj2_y t) = 21
        /\ length (traj2_z t) = 21
        /\ aget (traj2_x t) 0 = 1%float
        /\ aget (traj2_y t) 0 = 1%float
        /\ aget (traj2_z t) 0 = 2%float).
Proof.
  destruct (trajectory_length_and_start repeatedProduct quadratic1D quadratic2D
              (exampleSettings "Newton" 1 1 None)) as [H1 _].
  destruct (trajectory_length_and_start repeatedProduct quadratic1D quadratic2D
              (exampleSettings "Adam" 1 1 None)) as [_ H2].
  split.
  - exact (H1 (or_intror eq_refl)).
  - exact (H2 (or_intror (or_introl eq_refl))).
Defined.

(** ** C2: gradient descent with momentum *)

(** C2, as stated, fails in its last sentence.  With [momentum = 0] on
    [f(x) = x] (gradient 1 everywhere), [initialX = -1e308] and
    [learningRate = 1e308], the first iterate is [-Infinity]; at step 1 the
    gradient is finite, plain steepest descent gives
    [x[1] - learningRate * 1 = -Infinity], but the momentum term is
    [0 * (-Infinity - (-1e308)) = NaN] and the iterate stored at index 2 is
    NaN. *)
Lemma momentum_zero_is_not_plain_descent :
  exists t,
    computeTrajectory1D linear1D overflowSettings = Normal t
    /\ momentum overflowSettings = 0%float
    /\ aget (traj_x t) 1 = neg_infinity
    /\ evaluateNumber (gradient linear1D) (scope1 (aget (traj_x t) 1)) = 1%float
    /\ (aget (traj_x t) 1
        - learningRate overflowSettings
          * evaluateNumber (gradient linear1D) (scope1 (aget (traj_x t) 1)))%float
       = neg_infinity
    /\ aget (traj_x t) 2 = nan
    /\ sameNumber (aget (traj_x t) 2)
         (aget (traj_x t) 1
          - learningRate overflowSettings
            * evaluateNumber (gradient linear1D) (scope1 (aget (traj_x t) 1)))%float
       = false.
Proof. eexists. repeat split. Qed.

(** C2, amended: under "Gradient Descent", at every step [i] below [numSteps]
    where the gradient (in two variables, both partial derivatives) is finite,
    the next iterate is [x[i] - learningRate * g + m] evaluated in binary64 in
    that order, with [m = 0] at [i = 0] and
    [m = momentum * (x[i] - x[i-1])] afterwards, per axis in two variables.
    With [momentum = 0] the next iterate is the same number as the plain
    steepest descent step [x[i] - learningRate * g] (equal under [===], or
    both NaN) at [i = 0] and at every later step whose previous displacement
    [x[i] - x[i-1]] is finite; when that displacement is infinite or NaN the
    next iterate is NaN. *)
Theorem gradientDescent_update
    (exponentiate : float -> nat -> float)
    (analysis1 : Analysis1D) (analysis2 : Analysis2D) (settings : Settings) :
  let n := match numSteps settings with Some n => n | None => 20 end in
  optimiserType settings = "Gradient Descent" ->
  (forall t, computeTrajectory1D analysis1 settings = Normal t ->
   forall i, i < n ->
     let x := aget (traj_x t) i in
     let d := (x - aget (traj_x t) (i - 1))%float in
     let g := evaluateNumber (gradient analysis1) (scope1 x) in
     Number_isFinite g = true ->
     aget (traj_x t) (i + 1)
     = (x - learningRate settings * g
        + (if decide (i = 0%nat) then 0 else momentum settings * d))%float
     /\ (momentum settings = 0%float ->
         (i = 0%nat \/ Number_isFinite d = true ->
            sameNumber (aget (traj_x t) (i + 1)) (x - learningRate settings * g)%float = true)
         /\ (i ≠ 0%nat -> Number_isFinite d = false -> aget (traj_x t) (i + 1) = nan)))
  /\ (forall t, computeTrajectory2D exponentiate analysis2 settings = Normal t ->
      forall i, i < n ->
        let x := aget (traj2_x t) i in
        let y := aget (traj2_y t) i in
        let dx := (x - aget (traj2_x t) (i - 1))%float in
        let dy := (y - aget (traj2_y t) (i - 1))%float in
        let gradX := evaluateNumber (gradient_x analysis2) (scope2 x y) in
        let gradY := evaluateNumber (gradient_y analysis2) (scope2 x y) in
        Number_isFinite gradX = true ->
        Number_isFinite gradY = true ->
        aget (traj2_x t) (i + 1)
        = (x - learningRate settings * gradX
           + (if decide (i = 0%nat) then 0 else momentum settings * dx))%float
        /\ aget (traj2_y t) (i + 1)
           = (y - learningRate settings * gradY
              + (if decide (i = 0%nat) then 0 else momentum settings * dy))%float
        /\ (momentum settings = 0%float ->
            (i = 0%nat \/ Number_isFinite dx = true ->
               sameNumber (aget (traj2_x t) (i + 1))
                          (x - learningRate settings * gradX)%float = true)
            /\ (i = 0%nat \/ Number_isFinite dy = true ->
                  sameNumber (aget (traj2_y t) (i + 1))
                             (y - learningRate settings * gradY)%float = true)
            /\ (i ≠ 0%nat -> Number_isFinite dx = false -> aget (traj2_x t) (i + 1) = nan)
            /\ (i ≠ 0%nat -> Number_isFinite dy = false -> aget (traj2_y t) (i + 1) = nan))).
Proof.
  intros n Htype. change n with (stepCount settings). clear n. split.
  - intros t Hrun i Hi x d g Hg.
    destruct (gradientDescent1D_advance analysis1 settings t i Hrun Hi Htype Hg)
      as [Hx _].
    fold x g d in Hx. split; [done|]. intros Hm. rewrite Hm in Hx. rewrite Hx.
    split.
    + apply plain_descent_sameNumber.
    + apply poisoned_descent_nan.
  - intros t Hrun i Hi x y dx dy gradX gradY HgX HgY.
    assert (gradientInvalid2D analysis2 x y = false) as Hg.
    { unfold gradientInvalid2D. fold gradX gradY. by rewrite HgX, HgY. }
    destruct (gradientDescent2D_advance exponentiate analysis2 settings t i
                Hrun Hi Htype Hg) as (Hx & Hy & _).
    fold x y gradX gradY dx dy in Hx, Hy. split; [done|]. split; [done|].
    intros Hm. rewrite Hm in Hx, Hy. rewrite Hx, Hy.
    split; [apply plain_descent_sameNumber|].
    split; [apply plain_descent_sameNumber|].
    split; apply poisoned_descent_nan.
Qed.

(** The amended C2 on [x^2] from 1 with learning rate 0.1 and no momentum:
    two plain descent steps; and on the overflowing run, where the second
    displacement is infinite and the iterate is NaN. *)
Lemma gradientDescent_update_witness :
  (exists t,
     computeTrajectory1D quadratic1D (exampleSettings "Gradient Descent" 1 1 (Some 2))
     = Normal t
     /\ aget (traj_x t) 1 = (1 - 0.1 * (2 * 1) + 0)%float
     /\ sameNumber (aget (traj_x t) 2)
          (aget (traj_x t) 1 - 0.1 * (2 * aget (traj_x t) 1))%float = true)
  /\ (exists t,
        computeTrajectory1D linear1D overflowSettings = Normal t
        /\ aget (traj_x t) 2 = nan)
  /\ (exists t,
        computeTrajectory2D repeatedProduct quadratic2D
          (exampleSettings "Gradient Descent" 1 1 (Some 2)) = Normal t
        /\ aget (traj2_x t) 1 = (1 - 0.1 * (2 * 1) + 0)%float
        /\ aget (traj2_y t) 1 = (1 - 0.1 * (2 * 1) + 0)%float).
Proof.
  destruct (gradientDescent_update repeatedProduct quadratic1D quadratic2D
              (exampleSettings "Gradient Descent" 1 1 (Some 2)) eq_refl) as [H1 H2].
  destruct (gradientDescent_update repeatedProduct linear1D quadratic2D
              overflowSettings eq_refl) as [H3 _].
  split; [|split].
  - eexists. split; [reflexivity|]. split.
    + apply (H1 _ eq_refl 0); [simpl; lia|reflexivity].
    + destruct (H1 _ eq_refl 1) as [_ Hplain]; [simpl; lia|reflexivity|].
      apply (Hplain eq_refl). right. reflexivity.
  - eexists. split; [reflexivity|].
    destruct (H3 _ eq_refl 1) as [_ Hplain]; [simpl; lia|reflexivity|].
    apply (Hplain eq_refl); [lia|reflexivity].
  - eexists. split; [reflexivity|].
    destruct (H2 _ eq_refl 0) as (Hx & Hy & _); [simpl; lia|reflexivity|reflexivity|].
    split; [exact Hx|exact Hy].
Defined.

(** ** C3: Adam *)

(** C3: under "Adam", with all four moments 0 before the first step, at every
    step [i] below [numSteps] where both partial derivatives are finite the
    moments become [m <- beta1 * m + (1 - beta1) * g] and
    [v <- beta2 * v + (1 - beta2) * g * g] per axis, the bias-corrected
    estimates divide them by [1 - beta1 ** (i + 1)] and [1 - beta2 ** (i + 1)],
    a correction of magnitude below [1e-9] being replaced by [1e-9], and the
    position moves to [x[i] - learningRate * mHat_x / (sqrt vHat_x + 1e-8)],
    likewise for [y].  The denominator is the one this rule names for every
    correction other than [-1e-9] exactly and NaN, where [1e-9] is used. *)
Theorem adam_update
    (exponentiate : float -> nat -> float)
    (analysis : Analysis2D) (settings : Settings) :
  let n := match numSteps settings with Some n => n | None => 20 end in
  let run := adamRun exponentiate analysis settings in
  optimiserType settings = "Adam" ->
  forall t, computeTrajectory2D exponentiate analysis settings = Normal t ->
  (mx (run 0%nat), my (run 0%nat), vx (run 0%nat), vy (run 0%nat))
  = (0%float, 0%float, 0%float, 0%float)
  /\ forall i, i < n ->
       let x := aget (traj2_x t) i in
       let y := aget (traj2_y t) i in
       let gradX := evaluateNumber (gradient_x analysis) (scope2 x y) in
       let gradY := evaluateNumber (gradient_y analysis) (scope2 x y) in
       let c1 := (1 - exponentiate (beta1 settings) (i + 1)%nat)%float in
       let c2 := (1 - exponentiate (beta2 settings) (i + 1)%nat)%float in
       let d1 := if (1e-9 <? abs c1)%float then c1 else 1e-9%float in
       let d2 := if (1e-9 <? abs c2)%float then c2 else 1e-9%float in
       Number_isFinite gradX = true ->
       Number_isFinite gradY = true ->
       mx (run (i + 1)%nat) = (beta1 settings * mx (run i) + (1 - beta1 settings) * gradX)%float
       /\ my (run (i + 1)%nat) = (beta1 settings * my (run i) + (1 - beta1 settings) * gradY)%float
       /\ vx (run (i + 1)%nat)
          = (beta2 settings * vx (run i) + (1 - beta2 settings) * gradX * gradX)%float
       /\ vy (run (i + 1)%nat)
          = (beta2 settings * vy (run i) + (1 - beta2 settings) * gradY * gradY)%float
       /\ ((abs c1 <? 1e-9)%float = true -> d1 = 1e-9%float)
       /\ ((1e-9 <? abs c1)%float = true -> d1 = c1)
       /\ ((abs c2 <? 1e-9)%float = true -> d2 = 1e-9%float)
       /\ ((1e-9 <? abs c2)%float = true -> d2 = c2)
       /\ (d1 = (if (abs c1 <? 1e-9)%float then 1e-9%float else c1)
           \/ c1 = (-1e-9)%float \/ c1 = nan)
       /\ (d2 = (if (abs c2 <? 1e-9)%float then 1e-9%float else c2)
           \/ c2 = (-1e-9)%float \/ c2 = nan)
       /\ aget (traj2_x t) (i + 1)
          = (x - learningRate settings * (mx (run (i + 1)%nat) / d1)
                 / (sqrt (vx (run (i + 1)%nat) / d2) + 1e-8))%float
       /\ aget (traj2_y t) (i + 1)
          = (y - learningRate settings * (my (run (i + 1)%nat) / d1)
                 / (sqrt (vy (run (i + 1)%nat) / d2) + 1e-8))%float.
Proof.
  intros n run Htype t Hrun. change n with (stepCount settings). clear n.
  split; [reflexivity|].
  intros i Hi x y gradX gradY c1 c2 d1 d2 HgX HgY.
  assert (gradientInvalid2D analysis x y = false) as Hg.
  { unfold gradientInvalid2D. fold gradX gradY. by rewrite HgX, HgY. }
  destruct (adam_advance exponentiate analysis settings t i Hrun Hi Htype Hg)
    as (Hmx & Hmy & Hvx & Hvy & Hx & Hy & _).
  destruct (correctionDenominator_cases c1) as [Hc1lt Hc1gt].
  destruct (correctionDenominator_cases c2) as [Hc2lt Hc2gt].
  pose proof (correctionDenominator_literal c1) as Hc1.
  pose proof (correctionDenominator_literal c2) as Hc2.
  repeat split; assumption.
Qed.

(** C3 on [x^2 + y^2] from [(1, 1)] with the default rates: the gradient is
    [(2, 2)], the corrections [1 - 0.9] and [1 - 0.999] are used as they are,
    and the first step moves each coordinate by the learning rate, up to
    rounding. *)
Lemma adam_update_witness :
  exists t,
    computeTrajectory2D repeatedProduct quadratic2D (exampleSettings "Adam" 1 1 (Some 2))
    = Normal t
    /\ mx (adamRun repeatedProduct quadratic2D (exampleSettings "Adam" 1 1 (Some 2)) 1)
       = (0.9 * 0 + (1 - 0.9) * 2)%float
    /\ vx (adamRun repeatedProduct quadratic2D (exampleSettings "Adam" 1 1 (Some 2)) 1)
       = (0.999 * 0 + (1 - 0.999) * 2 * 2)%float
    /\ aget (traj2_x t) 1
       = (1 - 0.1 * ((0.9 * 0 + (1 - 0.9) * 2) / (1 - 0.9 * 1))
              / (sqrt ((0.999 * 0 + (1 - 0.999) * 2 * 2) / (1 - 0.999 * 1)) + 1e-8))%float.
Proof.
  eexists. split; [reflexivity|].
  destruct (adam_update repeatedProduct quadratic2D (exampleSettings "Adam" 1 1 (Some 2))
              eq_refl _ eq_refl) as [_ Hstep].
  destruct (Hstep 0) as (Hmx & _ & Hvx & _ & _ & _ & _ & _ & _ & _ & Hx & _);
    [simpl; lia|reflexivity|reflexivity|].
  split; [exact Hmx|]. split; [exact Hvx|exact Hx].
Defined.

(** ** C4: Newton steps *)



(** ** C5: the 2x2 inverse *)

(** C5, as stated, fails in binary64 arithmetic.  For the matrix
    [[1, 0], [0, 49]] the determinant is 49 and an inverse is returned, but its
    [xx] entry is [49 * (1 / 49) = 0.99999999999999989], not [49 / 49 = 1], and
    the top-left entry of the returned matrix times the input is not 1. *)
Lemma invert2x2_not_exact_inverse :
  exists inv,
    invert2x2 1 0 0 49 = Some inv
    /\ xx inv ≠ (49 / (1 * 49 - 0 * 0))%float
    /\ (xx inv * 1 + xy inv * 0)%float ≠ 1%float.
Proof.
  eexists. split; [reflexivity|]. simpl. split; float_discriminate.
Qed.

(** C5, amended: with [det = a * d - b * c] as computed in binary64,
    [invert2x2] returns no inverse exactly when [det] is not finite or
    [|det| < 1e-9]; otherwise it returns the closed form scaled by the
    reciprocal [1 / det], each entry being the rounded product
    [d * (1 / det)], [-b * (1 / det)], [-c * (1 / det)], [a * (1 / det)].
    Nothing is promised about the rounded product of this matrix with the
    input. *)
Theorem invert2x2_closed_form (a b c d : float) :
  let det := (a * d - b * c)%float in
  (invert2x2 a b c d = None
   <-> Number_isFinite det = false \/ (abs det <? 1e-9)%float = true)
  /\ (forall inv, invert2x2 a b c d = Some inv ->
        inv = {| xx := (d * (1 / det))%float;
                 xy := (- b * (1 / det))%float;
                 yx := (- c * (1 / det))%float;
                 yy := (a * (1 / det))%float |}).
Proof.
  intros det. unfold invert2x2. fold det. change EPSILON with 1e-9%float.
  destruct (Number_isFinite det) eqn:Hf; simpl.
  - destruct (abs det <? 1e-9)%float eqn:Hd.
    + split; [split; auto|done].
    + split; [|by intros inv [= <-]]. split; [done|]. by intros [|].
  - split; [split; auto|done].
Qed.

(** The amended C5 at the diagonal matrix [[2, 0], [0, 4]]. *)
Lemma invert2x2_closed_form_witness :
  (invert2x2 2 0 0 4 = None
   <-> Number_isFinite (2 * 4 - 0 * 0)%float = false
       \/ (abs (2 * 4 - 0 * 0) <? 1e-9)%float = true)
  /\ {| xx := 0.5%float; xy := (-0)%float; yx := (-0)%float; yy := 0.25%float |}
     = {| xx := (4 * (1 / (2 * 4 - 0 * 0)))%float;
          xy := (- 0 * (1 / (2 * 4 - 0 * 0)))%float;
          yx := (- 0 * (1 / (2 * 4 - 0 * 0)))%float;
          yy := (2 * (1 / (2 * 4 - 0 * 0)))%float |}.
Proof.
  destruct (invert2x2_closed_form 2 0 0 4) as [Hnone Hsome].
  split; [exact Hnone|]. apply Hsome. reflexivity.
Defined.

(** ** C6: the safe evaluator *)

(** C6, as stated, fails: an evaluator that returns a value that is not of
    type number does not always give the sentinel.  The boolean [true] is
    converted by [Number(value)] and comes back as the number 1. *)
Lemma evaluateNumber_boolean_is_converted :
  evaluateNumber (fun _ : Scope1D => Normal (JsBoolean true)) (scope1 0%float) = 1%float
  /\ 1%float ≠ nan.
Proof. split; [reflexivity|float_discriminate]. Qed.

(** C6, amended: [evaluateNumber] is total (it never raises) and its result is
    NaN or a finite number.  It is NaN when the evaluator raises, when the
    conversion [Number(value)] of a value that is not of type number raises,
    and when the returned or converted number is NaN or infinite; otherwise it
    is the finite number returned, or the finite number the value converts to
    ([true] gives 1, [false] and [null] give 0). *)
Theorem evaluateNumber_converts_and_guards
    {Scope : Type} (compiled : Compiled Scope) (scope : Scope) :
  (evaluateNumber compiled scope = nan
   \/ Number_isFinite (evaluateNumber compiled scope) = true)
  /\ (forall e, compiled scope = Throw e -> evaluateNumber compiled scope = nan)
  /\ (forall v, compiled scope = Normal (JsNumber v) ->
        evaluateNumber compiled scope = if Number_isFinite v then v else nan)
  /\ (forall value e, compiled scope = Normal value -> js_Number value = Throw e ->
        evaluateNumber compiled scope = nan)
  /\ (forall value v, compiled scope = Normal value -> js_Number value = Normal v ->
        evaluateNumber compiled scope = if Number_isFinite v then v else nan)
  /\ (compiled scope = Normal (JsBoolean true) -> evaluateNumber compiled scope = 1%float)
  /\ (compiled scope = Normal (JsBoolean false) -> evaluateNumber compiled scope = 0%float)
  /\ (compiled scope = Normal JsNull -> evaluateNumber compiled scope = 0%float)
  /\ (compiled scope = Normal JsUndefined -> evaluateNumber compiled scope = nan).
Proof.
  split; [apply evaluateNumber_nan_or_finite|].
  unfold evaluateNumber, evaluateNumber_body.
  repeat split.
  - by intros e ->.
  - by intros v ->.
  - intros value e -> Hn. destruct value as [n|[]| | |c]; simpl in *; by subst.
  - intros value v -> Hn.
    destruct value as [n|[]| | |c]; simpl in *; try injection Hn as <-; by subst.
  - by intros ->.
  - by intros ->.
  - by intros ->.
  - by intros ->.
Qed.

(** The amended C6 at concrete evaluators: one that raises, one that returns a
    finite number, one that returns [Infinity], and one that returns [true]. *)
Lemma evaluateNumber_converts_and_guards_witness :
  evaluateNumber (fun _ : Scope1D => Throw "undefined symbol") (scope1 2%float) = nan
  /\ evaluateNumber (fn quadratic1D) (scope1 3%float) = 9%float
  /\ evaluateNumber (fn reciprocal1D) (scope1 0%float) = nan
  /\ evaluateNumber (fun _ : Scope1D => Normal (JsBoolean true)) (scope1 2%float) = 1%float.
Proof.
  split; [|split; [|split]].
  - destruct (evaluateNumber_converts_and_guards
                (fun _ : Scope1D => Throw "undefined symbol") (scope1 2%float))
      as (_ & Hthrow & _).
    exact (Hthrow "undefined symbol" eq_refl).
  - destruct (evaluateNumber_converts_and_guards (fn quadratic1D) (scope1 3%float))
      as (_ & _ & Hnumber & _).
    exact (Hnumber 9%float eq_refl).
  - destruct (evaluateNumber_converts_and_guards (fn reciprocal1D) (scope1 0%float))
      as (_ & _ & Hnumber & _).
    exact (Hnumber infinity eq_refl).
  - destruct (evaluateNumber_converts_and_guards
                (fun _ : Scope1D => Normal (JsBoolean true)) (scope1 2%float))
      as (_ & _ & _ & _ & _ & Htrue & _).
    exact (Htrue eq_refl).
Defined.

(** ** C7: unsupported optimiser types *)

(** C7: when [optimiserType] is none of the names the function knows
    ("Gradient Descent" and "Newton" in one variable; "Gradient Descent",
    "Adam" and "Newton" in two), the call throws
    [Unsupported optimiser type: <name>] and returns no trajectory.  The
    outcome is the same for every analysis and every step count: no loop
    iteration, and so no gradient or Hessian evaluation, takes part in it. *)
Theorem unsupported_optimiserType_throws
    (exponentiate : float -> nat -> float)
    (analysis1 : Analysis1D) (analysis2 : Analysis2D) (settings : Settings) :
  (optimiserType settings ≠ "Gradient Descent" ->
   optimiserType settings ≠ "Newton" ->
   computeTrajectory1D analysis1 settings
   = Throw ("Unsupported optimiser type: " ++ optimiserType settings)
   /\ forall t, computeTrajectory1D analysis1 settings ≠ Normal t)
  /\ (optimiserType settings ≠ "Gradient Descent" ->
      optimiserType settings ≠ "Adam" ->
      optimiserType settings ≠ "Newton" ->
      computeTrajectory2D exponentiate analysis2 settings
      = Throw ("Unsupported optimiser type: " ++ optimiserType settings)
      /\ forall t, computeTrajectory2D exponentiate analysis2 settings ≠ Normal t).
Proof.
  split.
  - intros H1 H2. rewrite computeTrajectory1D_unsupported by done. done.
  - intros H1 H2 H3. rewrite computeTrajectory2D_unsupported by done. done.
Qed.

(** C7 at the type "Foo", and at "Adam" for the one-variable engine. *)
Lemma unsupported_optimiserType_throws_witness :
  computeTrajectory1D quadratic1D (exampleSettings "Foo" 1 1 None)
  = Throw "Unsupported optimiser type: Foo"
  /\ computeTrajectory1D quadratic1D (exampleSettings "Adam" 1 1 None)
     = Throw "Unsupported optimiser type: Adam"
  /\ computeTrajectory2D repeatedProduct quadratic2D (exampleSettings "Foo" 1 1 None)
     = Throw "Unsupported optimiser type: Foo".
Proof.
  split; [|split].
  - apply (unsupported_optimiserType_throws repeatedProduct quadratic1D quadratic2D
             (exampleSettings "Foo" 1 1 None)); done.
  - apply (unsupported_optimiserType_throws repeatedProduct quadratic1D quadratic2D
             (exampleSettings "Adam" 1 1 None)); done.
  - apply (unsupported_optimiserType_throws repeatedProduct quadratic1D quadratic2D
             (exampleSettings "Foo" 1 1 None)); done.
Defined.

(** ** C8: the objective after a step that advances *)

(** C8: for every optimiser and every step [i] whose guard does not hold, the
    objective at [i + 1] is the safe evaluation of the objective at the
    position stored at [i + 1] when that evaluation is valid, and the objective
    at [i] when it is invalid; in both cases the position at [i + 1] is the one
    the optimiser's update rule gives. *)
Theorem objective_recomputed_after_advance
    (exponentiate : float -> nat -> float)
    (analysis1 : Analysis1D) (analysis2 : Analysis2D) (settings : Settings) :
  let n := match numSteps settings with Some n => n | None => 20 end in
  (forall t, computeTrajectory1D analysis1 settings = Normal t ->
   forall i, i < n ->
     let x := aget (traj_x t) i in
     let g := evaluateNumber (gradient analysis1) (scope1 x) in
     let h := evaluateNumber (hessian analysis1) (scope1 x) in
     stalls1D analysis1 settings x = false ->
     recomputedObjective
       (evaluateNumber (fn analysis1) (scope1 (aget (traj_x t) (i + 1))))
       (aget (traj_y t) i) (aget (traj_y t) (i + 1))
     /\ (optimiserType settings = "Gradient Descent" ->
           aget (traj_x t) (i + 1)
           = (x - learningRate settings * g
              + (if decide (i = 0%nat) then 0
                 else momentum settings * (x - aget (traj_x t) (i - 1))))%float)
     /\ (optimiserType settings = "Newton" ->
           aget (traj_x t) (i + 1) = (x - g / h)%float))
  /\ (forall t, computeTrajectory2D exponentiate analysis2 settings = Normal t ->
      forall i, i < n ->
        let x := aget (traj2_x t) i in
        let y := aget (traj2_y t) i in
        let gradX := evaluateNumber (gradient_x analysis2) (scope2 x y) in
        let gradY := evaluateNumber (gradient_y analysis2) (scope2 x y) in
        let after := adamRun exponentiate analysis2 settings (i + 1) in
        let d1 := correctionDenominator (1 - exponentiate (beta1 settings) (i + 1)%nat)%float in
        let d2 := correctionDenominator (1 - exponentiate (beta2 settings) (i + 1)%nat)%float in
        stalls2D analysis2 settings x y = false ->
        recomputedObjective
          (evaluateNumber (fn2 analysis2)
             (scope2 (aget (traj2_x t) (i + 1)) (aget (traj2_y t) (i + 1))))
          (aget (traj2_z t) i) (aget (traj2_z t) (i + 1))
        /\ (optimiserType settings = "Gradient Descent" ->
              aget (traj2_x t) (i + 1)
              = (x - learningRate settings * gradX
                 + (if decide (i = 0%nat) then 0
                    else momentum settings * (x - aget (traj2_x t) (i - 1))))%float
              /\ aget (traj2_y t) (i + 1)
                 = (y - learningRate settings * gradY
                    + (if decide (i = 0%nat) then 0
                       else momentum settings * (y - aget (traj2_y t) (i - 1))))%float)
        /\ (optimiserType settings = "Adam" ->
              aget (traj2_x t) (i + 1)
              = (x - learningRate settings * (mx after / d1)
                     / (sqrt (vx after / d2) + 1e-8))%float
              /\ aget (traj2_y t) (i + 1)
                 = (y - learningRate settings * (my after / d1)
                        / (sqrt (vy after / d2) + 1e-8))%float)
        /\ (optimiserType settings = "Newton" ->
              exists inv,
                hessianInverse analysis2 x y = Some inv
                /\ aget (traj2_x t) (i + 1) = (x - (xx inv * gradX + xy inv * gradY))%float
                /\ aget (traj2_y t) (i + 1) = (y - (yx inv * gradX + yy inv * gradY))%float)).
Proof.
  intros n. change n with (stepCount settings). clear n. split.
  - intros t Hrun i Hi x g h Hstall. unfold stalls1D in Hstall.
    destruct (computeTrajectory1D_Normal_type _ _ _ Hrun) as [Ht|Ht];
      rewrite Ht in Hstall; simpl in Hstall.
    + apply negb_false_iff in Hstall.
      destruct (gradientDescent1D_advance analysis1 settings t i Hrun Hi Ht Hstall)
        as [Hx Hy].
      split; [rewrite Hy; apply ensureValue_recomputed|].
      split; [done|]. intros Ht'. rewrite Ht in Ht'. done.
    + destruct (newton1D_advance analysis1 settings t i Hrun Hi Ht Hstall) as [Hx Hy].
      split; [rewrite Hy; apply ensureValue_recomputed|].
      split; [|done]. intros Ht'. rewrite Ht in Ht'. done.
  - intros t Hrun i Hi x y gradX gradY after d1 d2 Hstall. unfold stalls2D in Hstall.
    destruct (computeTrajectory2D_Normal_type _ _ _ _ Hrun) as [Ht|[Ht|Ht]];
      rewrite Ht in Hstall; simpl in Hstall.
    + destruct (gradientDescent2D_advance exponentiate analysis2 settings t i
                  Hrun Hi Ht Hstall) as (Hx & Hy & Hz).
      split; [rewrite Hz; apply ensureValue_recomputed|].
      split; [done|]. split; intros Ht'; rewrite Ht in Ht'; done.
    + destruct (adam_advance exponentiate analysis2 settings t i Hrun Hi Ht Hstall)
        as (_ & _ & _ & _ & Hx & Hy & Hz).
      split; [rewrite Hz; apply ensureValue_recomputed|].
      split; [intros Ht'; rewrite Ht in Ht'; done|].
      split; [done|]. intros Ht'; rewrite Ht in Ht'; done.
    + destruct (newton2D_advance exponentiate analysis2 settings t i Hrun Hi Ht Hstall)
        as (inv & Hinv & Hx & Hy & Hz).
      split; [rewrite Hz; apply ensureValue_recomputed|].
      split; [intros Ht'; rewrite Ht in Ht'; done|].
      split; [intros Ht'; rewrite Ht in Ht'; done|].
      intros _. by exists inv.
Qed.

(** C8 at [1 / x] and [1 / x + 1 / y]: the step from -1 advances to 0, where
    the objective is infinite, so the objective recorded at index 1 is the one
    at index 0 while the position has moved. *)
Lemma objective_recomputed_after_advance_witness :
  (exists t,
     computeTrajectory1D reciprocal1D poleSettings = Normal t
     /\ aget (traj_x t) 0 = (-1)%float
     /\ aget (traj_x t) 1 = 0%float
     /\ aget (traj_y t) 1 = aget (traj_y t) 0)
  /\ (exists t,
        computeTrajectory2D repeatedProduct reciprocal2D poleSettings = Normal t
        /\ aget (traj2_x t) 1 = 0%float
        /\ aget (traj2_y t) 1 = 0%float
        /\ aget (traj2_z t) 1 = aget (traj2_z t) 0).
Proof.
  destruct (objective_recomputed_after_advance repeatedProduct
              reciprocal1D reciprocal2D poleSettings) as [H1 H2].
  split.
  - eexists. split; [reflexivity|]. split; [reflexivity|].
    destruct (H1 _ eq_refl 0) as (Hobj & Hgd & _); [simpl; lia|reflexivity|].
    split; [exact (Hgd eq_refl)|exact (proj2 Hobj eq_refl)].
  - eexists. split; [reflexivity|].
    destruct (H2 _ eq_refl 0) as (Hobj & Hgd & _); [simpl; lia|reflexivity|].
    destruct (Hgd eq_refl) as [Hx Hy].
    split; [exact Hx|]. split; [exact Hy|exact (proj2 Hobj eq_refl)].
Defined.

(** ** C9: a gradient that is never finite *)

(** C9: if the gradient evaluator (in two variables, both partial derivative
    evaluators) returns a non-finite number at every point, then for every
    optimiser and every index [i] from 0 to [numSteps] the position at [i] is
    the initial point and the objective at [i] is the objective recorded at
    index 0. *)
Theorem invalid_gradient_freezes_trajectory
    (exponentiate : float -> nat -> float)
    (analysis1 : Analysis1D) (analysis2 : Analysis2D) (settings : Settings) :
  let n := match numSteps settings with Some n => n | None => 20 end in
  ((forall p, returnsNonFinite (gradient analysis1) p) ->
   forall t, computeTrajectory1D analysis1 settings = Normal t ->
   forall i, i <= n ->
     aget (traj_x t) i = initialX settings
     /\ aget (traj_y t) i = aget (traj_y t) 0)
  /\ ((forall p, returnsNonFinite (gradient_x analysis2) p) ->
      (forall p, returnsNonFinite (gradient_y analysis2) p) ->
      forall t, computeTrajectory2D exponentiate analysis2 settings = Normal t ->
      forall i, i <= n ->
        aget (traj2_x t) i = initialX settings
        /\ aget (traj2_y t) i = initialY settings
        /\ aget (traj2_z t) i = aget (traj2_z t) 0).
Proof.
  intros n. change n with (stepCount settings). clear n. split.
  - intros Hg t Hrun i Hi.
    assert (entry1D t i = entry1D t 0) as Hfrozen.
    { apply (stalled_prefix1D analysis1 settings); [done..|].
      intros j _. apply invalid_gradient_stalls1D.
      by apply evaluateNumber_returnsNonFinite. }
    destruct (computeTrajectory1D_start _ _ _ Hrun) as (_ & H0).
    unfold entry1D in *. split; congruence.
  - intros Hgx Hgy t Hrun i Hi.
    assert (entry2D t i = entry2D t 0) as Hfrozen.
    { apply (stalled_prefix2D exponentiate analysis2 settings); [done..|].
      intros j _. apply invalid_gradient_stalls2D.
      by apply evaluateNumber_returnsNonFinite. }
    destruct (computeTrajectory2D_start _ _ _ _ Hrun) as (_ & H0).
    unfold entry2D in *. repeat split; congruence.
Qed.

(** C9 at evaluators that return NaN and [Infinity] everywhere, three steps
    from [(1, 1)]. *)
Lemma invalid_gradient_freezes_trajectory_witness :
  (exists t,
     computeTrajectory1D brokenGradient1D (exampleSettings "Gradient Descent" 1 1 (Some 3))
     = Normal t
     /\ aget (traj_x t) 3 = 1%float
     /\ aget (traj_y t) 3 = aget (traj_y t) 0)
  /\ (exists t,
        computeTrajectory2D repeatedProduct brokenGradient2D
          (exampleSettings "Adam" 1 1 (Some 3)) = Normal t
        /\ aget (traj2_x t) 3 = 1%float
        /\ aget (traj2_y t) 3 = 1%float
        /\ aget (traj2_z t) 3 = aget (traj2_z t) 0).
Proof.
  destruct (invalid_gradient_freezes_trajectory repeatedProduct
              brokenGradient1D brokenGradient2D
              (exampleSettings "Gradient Descent" 1 1 (Some 3))) as [H1 _].
  destruct (invalid_gradient_freezes_trajectory repeatedProduct
              brokenGradient1D brokenGradient2D
              (exampleSettings "Adam" 1 1 (Some 3))) as [_ H2].
  split.
  - eexists. split; [reflexivity|].
    apply H1; [|reflexivity|simpl; lia].
    intros p. exists nan. split; reflexivity.
  - eexists. split; [reflexivity|].
    apply H2; [| |reflexivity|simpl; lia].
    + intros p. exists infinity. split; reflexivity.
    + intros p. exists nan. split; reflexivity.
Defined.

(** ** C10: an objective that is invalid at the start *)

(** C10: if the safe evaluation of the objective at the initial point is
    invalid, the objective recorded at index 0 is the number 0, and as long as
    every step so far has stalled the recorded objective is still that 0. *)
Theorem invalid_initial_objective_records_zero
    (exponentiate : float -> nat -> float)
    (analysis1 : Analysis1D) (analysis2 : Analysis2D) (settings : Settings) :
  let n := match numSteps settings with Some n => n | None => 20 end in
  (evaluateNumber (fn analysis1) (scope1 (initialX settings)) = nan ->
   forall t, computeTrajectory1D analysis1 settings = Normal t ->
     aget (traj_y t) 0 = 0%float
     /\ forall k, k <= n ->
          (forall i, i < k -> stalls1D analysis1 settings (aget (traj_x t) i) = true) ->
          aget (traj_y t) k = 0%float)
  /\ (evaluateNumber (fn2 analysis2) (scope2 (initialX settings) (initialY settings)) = nan ->
      forall t, computeTrajectory2D exponentiate analysis2 settings = Normal t ->
        aget (traj2_z t) 0 = 0%float
        /\ forall k, k <= n ->
             (forall i, i < k ->
                stalls2D analysis2 settings (aget (traj2_x t) i) (aget (traj2_y t) i) = true) ->
             aget (traj2_z t) k = 0%float).
Proof.
  intros n. change n with (stepCount settings). clear n. split.
  - intros Hinvalid t Hrun.
    destruct (computeTrajectory1D_start _ _ _ Hrun) as (_ & H0).
    rewrite Hinvalid in H0. unfold ensureValue in H0. rewrite nan_not_finite in H0.
    assert (aget (traj_y t) 0 = 0%float) as Hy0 by (unfold entry1D in H0; congruence).
    split; [done|]. intros k Hk Hstall.
    pose proof (stalled_prefix1D analysis1 settings t k Hrun Hk Hstall) as Hfrozen.
    unfold entry1D in Hfrozen. congruence.
  - intros Hinvalid t Hrun.
    destruct (computeTrajectory2D_start _ _ _ _ Hrun) as (_ & H0).
    rewrite Hinvalid in H0. unfold ensureValue in H0. rewrite nan_not_finite in H0.
    assert (aget (traj2_z t) 0 = 0%float) as Hz0 by (unfold entry2D in H0; congruence).
    split; [done|]. intros k Hk Hstall.
    pose proof (stalled_prefix2D exponentiate analysis2 settings t k Hrun Hk Hstall)
      as Hfrozen.
    unfold entry2D in Hfrozen. congruence.
Qed.

(** C10 at [1 / x] and [1 / x + 1 / y] started at 0, where the objective and
    every derivative are infinite: the objective reads 0 at indices 0 and 2. *)
Lemma invalid_initial_objective_records_zero_witness :
  (exists t,
     computeTrajectory1D reciprocal1D (exampleSettings "Newton" 0 0 (Some 2)) = Normal t
     /\ aget (traj_y t) 0 = 0%float
     /\ aget (traj_y t) 2 = 0%float)
  /\ (exists t,
        computeTrajectory2D repeatedProduct reciprocal2D
          (exampleSettings "Gradient Descent" 0 0 (Some 2)) = Normal t
        /\ aget (traj2_z t) 0 = 0%float
        /\ aget (traj2_z t) 2 = 0%float).
Proof.
  destruct (invalid_initial_objective_records_zero repeatedProduct
              reciprocal1D reciprocal2D (exampleSettings "Newton" 0 0 (Some 2)))
    as [H1 _].
  destruct (invalid_initial_objective_records_zero repeatedProduct
              reciprocal1D reciprocal2D (exampleSettings "Gradient Descent" 0 0 (Some 2)))
    as [_ H2].
  split.
  - eexists. split; [reflexivity|].
    destruct (H1 eq_refl _ eq_refl) as [H0 Hk]. split; [exact H0|].
    apply (Hk 2); [simpl; lia|].
    intros [|[|i]] Hi; [reflexivity|reflexivity|lia].
  - eexists. split; [reflexivity|].
    destruct (H2 eq_refl _ eq_refl) as [H0 Hk]. split; [exact H0|].
    apply (Hk 2); [simpl; lia|].
    intros [|[|i]] Hi; [reflexivity|reflexivity|lia].
Defined.
